(** * rcl logging: the rosout publisher registry and the sink dispatcher

    A shallow embedding of [rcl/logging_rosout.c] (the registry of
    per-node rosout publishers) and of [rcl/logging.c] (the dispatcher that
    fans a log record out to the enabled output handlers), with the
    properties of the design document stated over it.

    The two translation units keep their state in file-level statics; the
    embedding threads one [state] record through every function.  The
    collaborators the code only calls (rcutils' hash map, the publisher
    API, the Log message type, the external logging library) are not part
    of these files: each call is recorded in a trace, and the status a
    call can return is drawn from a [World], a family of oracles indexed
    by the trace so far.  Theorems quantify over every world. *)

From stdpp Require Import base option list strings gmap fin_maps.
From Stdlib Require Import ZArith Lia.

Open Scope Z_scope.

(** ** Status codes *)

(** [rcl_ret_t] is an [int] with named values; only the names the two
    files compare against are distinguished, every other value is
    [RCL_RET_OTHER].  [RCUTILS_RET_OK] is the same value as [RCL_RET_OK]. *)
Inductive rcl_ret_t : Type :=
| RCL_RET_OK
| RCL_RET_ERROR
| RCL_RET_BAD_ALLOC
| RCL_RET_INVALID_ARGUMENT
| RCL_RET_ALREADY_INIT
| RCL_RET_NOT_INIT
| RCUTILS_RET_NOT_FOUND
| RCUTILS_RET_HASH_MAP_NO_MORE_ENTRIES
| RCL_RET_OTHER (code : Z).

#[global] Instance rcl_ret_eq_dec : EqDecision rcl_ret_t.
Proof. solve_decision. Defined.

(** ** Data of the collaborators *)

Record rcl_allocator_t := { allocator_id : nat }.

(** A node; [rcl_node_get_logger_name] yields its logger name or NULL. *)
Record rcl_node_t := {
  node_id : nat;
  rcl_node_get_logger_name : option string
}.

Record rcl_publisher_t := { publisher_id : nat }.

Record rosout_map_entry_t := {
  node : rcl_node_t;
  publisher : rcl_publisher_t
}.

Record rcutils_log_location_t := {
  function_name : string;
  file_name : string;
  line_number : Z
}.

(** Modelled from the spec: the wire message type
    [rcl_interfaces__msg__Log] is declared in [rcl_interfaces/msg/log.h],
    which is not part of the sources; the design document lists its fields
    as stamp.sec, stamp.nanosec, level, line, name, msg, file, function,
    the last four being settable strings.  The numeric fields hold the
    value of the expression the code assigns to them. *)
Record rcl_interfaces__msg__Log := {
  stamp_sec : Z;
  stamp_nanosec : Z;
  level : Z;
  line : Z;
  log_name : string;
  log_msg : string;
  log_file : string;
  log_function : string
}.

(** What [rcl_interfaces__msg__Log__create] hands out. *)
Definition Log__init : rcl_interfaces__msg__Log :=
  {| stamp_sec := 0; stamp_nanosec := 0; level := 0; line := 0;
     log_name := ""; log_msg := ""; log_file := ""; log_function := "" |}.

Definition ROSOUT_TOPIC_NAME : string := "rosout".

(** The functions [rcl_logging_configure] stores in the slots of
    [g_rcl_logging_out_handlers], by name. *)
Inductive rcutils_logging_output_handler_t : Type :=
| console_output_handler
| rosout_output_handler
| ext_lib_output_handler.

#[global] Instance handler_eq_dec : EqDecision rcutils_logging_output_handler_t.
Proof. solve_decision. Defined.

(** ** Calls on collaborators, as observed from outside *)

Inductive event : Type :=
| EvSetErrorMsg (text : string)
| EvHashMapInit (status : rcl_ret_t)
| EvHashMapFini (status : rcl_ret_t)
| EvHashMapKeyExists (key : string)
| EvHashMapGet (key : string)
| EvHashMapSet (key : string) (entry : rosout_map_entry_t) (status : rcl_ret_t)
| EvHashMapUnset (key : string) (status : rcl_ret_t)
| EvHashMapGetNext (previous : option string)
| EvPublisherInit (n : rcl_node_t) (topic : string)
                  (pub : rcl_publisher_t) (status : rcl_ret_t)
| EvPublisherFini (pub : rcl_publisher_t) (n : rcl_node_t) (status : rcl_ret_t)
| EvLogCreate (ok : bool)
| EvPublish (pub : rcl_publisher_t) (m : rcl_interfaces__msg__Log)
            (status : rcl_ret_t)
| EvLogDestroy (m : rcl_interfaces__msg__Log)
| EvLoggingAutoinit
| EvSetDefaultLoggerLevel (lvl : Z)
| EvSetOutputHandlerMultiple
| EvSetOutputHandlerConsole
| EvExternalInitialize (config_file : option string) (status : rcl_ret_t)
| EvExternalSetLoggerLevel (logger : option string) (lvl : Z)
| EvExternalShutdown (status : rcl_ret_t)
| EvExternalLog (severity : Z) (name : string) (text : string)
| EvConsoleOutput (location : option rcutils_log_location_t) (severity : Z)
                  (name : string) (timestamp : Z) (text : string).

(** The outcome of every fallible collaborator call, as a function of the
    calls made so far. *)
Record World := {
  w_hash_map_init : list event -> rcl_ret_t;
  w_hash_map_fini : list event -> rcl_ret_t;
  w_hash_map_set : list event -> rcl_ret_t;
  w_hash_map_unset : list event -> rcl_ret_t;
  w_publisher_init : list event -> rcl_node_t -> rcl_publisher_t * rcl_ret_t;
  w_publisher_fini : list event -> rcl_publisher_t -> rcl_node_t -> rcl_ret_t;
  w_Log__create : list event -> bool;
  w_publish : list event -> rcl_publisher_t -> rcl_interfaces__msg__Log -> rcl_ret_t;
  w_external_initialize : list event -> option string -> rcl_ret_t;
  w_external_shutdown : list event -> rcl_ret_t
}.

(** ** The statics of the two files *)

Definition RCL_LOGGING_MAX_OUTPUT_FUNCS : nat := 4.

Record state := {
  (* logging_rosout.c *)
  __logger_map : gmap string rosout_map_entry_t;
  __is_initialized : bool;
  __rosout_allocator : option rcl_allocator_t;
  (* logging.c *)
  g_rcl_logging_out_handlers : list (option rcutils_logging_output_handler_t);
  g_rcl_logging_num_out_handlers : Z;
  g_rcl_logging_stdout_enabled : bool;
  g_rcl_logging_rosout_enabled : bool;
  g_rcl_logging_ext_lib_enabled : bool;
  (* the calls made on collaborators, oldest first *)
  trace : list event
}.

Definition set_logger_map (m : gmap string rosout_map_entry_t) (st : state) : state :=
  {| __logger_map := m;
     __is_initialized := __is_initialized st;
     __rosout_allocator := __rosout_allocator st;
     g_rcl_logging_out_handlers := g_rcl_logging_out_handlers st;
     g_rcl_logging_num_out_handlers := g_rcl_logging_num_out_handlers st;
     g_rcl_logging_stdout_enabled := g_rcl_logging_stdout_enabled st;
     g_rcl_logging_rosout_enabled := g_rcl_logging_rosout_enabled st;
     g_rcl_logging_ext_lib_enabled := g_rcl_logging_ext_lib_enabled st;
     trace := trace st |}.

Definition set_is_initialized (b : bool) (st : state) : state :=
  {| __logger_map := __logger_map st;
     __is_initialized := b;
     __rosout_allocator := __rosout_allocator st;
     g_rcl_logging_out_handlers := g_rcl_logging_out_handlers st;
     g_rcl_logging_num_out_handlers := g_rcl_logging_num_out_handlers st;
     g_rcl_logging_stdout_enabled := g_rcl_logging_stdout_enabled st;
     g_rcl_logging_rosout_enabled := g_rcl_logging_rosout_enabled st;
     g_rcl_logging_ext_lib_enabled := g_rcl_logging_ext_lib_enabled st;
     trace := trace st |}.

Definition set_rosout_allocator (a : option rcl_allocator_t) (st : state) : state :=
  {| __logger_map := __logger_map st;
     __is_initialized := __is_initialized st;
     __rosout_allocator := a;
     g_rcl_logging_out_handlers := g_rcl_logging_out_handlers st;
     g_rcl_logging_num_out_handlers := g_rcl_logging_num_out_handlers st;
     g_rcl_logging_stdout_enabled := g_rcl_logging_stdout_enabled st;
     g_rcl_logging_rosout_enabled := g_rcl_logging_rosout_enabled st;
     g_rcl_logging_ext_lib_enabled := g_rcl_logging_ext_lib_enabled st;
     trace := trace st |}.

Definition set_out_handlers
    (hs : list (option rcutils_logging_output_handler_t)) (st : state) : state :=
  {| __logger_map := __logger_map st;
     __is_initialized := __is_initialized st;
     __rosout_allocator := __rosout_allocator st;
     g_rcl_logging_out_handlers := hs;
     g_rcl_logging_num_out_handlers := g_rcl_logging_num_out_handlers st;
     g_rcl_logging_stdout_enabled := g_rcl_logging_stdout_enabled st;
     g_rcl_logging_rosout_enabled := g_rcl_logging_rosout_enabled st;
     g_rcl_logging_ext_lib_enabled := g_rcl_logging_ext_lib_enabled st;
     trace := trace st |}.

Definition set_num_out_handlers (n : Z) (st : state) : state :=
  {| __logger_map := __logger_map st;
     __is_initialized := __is_initialized st;
     __rosout_allocator := __rosout_allocator st;
     g_rcl_logging_out_handlers := g_rcl_logging_out_handlers st;
     g_rcl_logging_num_out_handlers := n;
     g_rcl_logging_stdout_enabled := g_rcl_logging_stdout_enabled st;
     g_rcl_logging_rosout_enabled := g_rcl_logging_rosout_enabled st;
     g_rcl_logging_ext_lib_enabled := g_rcl_logging_ext_lib_enabled st;
     trace := trace st |}.

Definition set_enabled (stdout rosout ext_lib : bool) (st : state) : state :=
  {| __logger_map := __logger_map st;
     __is_initialized := __is_initialized st;
     __rosout_allocator := __rosout_allocator st;
     g_rcl_logging_out_handlers := g_rcl_logging_out_handlers st;
     g_rcl_logging_num_out_handlers := g_rcl_logging_num_out_handlers st;
     g_rcl_logging_stdout_enabled := stdout;
     g_rcl_logging_rosout_enabled := rosout;
     g_rcl_logging_ext_lib_enabled := ext_lib;
     trace := trace st |}.

Definition set_trace (t : list event) (st : state) : state :=
  {| __logger_map := __logger_map st;
     __is_initialized := __is_initialized st;
     __rosout_allocator := __rosout_allocator st;
     g_rcl_logging_out_handlers := g_rcl_logging_out_handlers st;
     g_rcl_logging_num_out_handlers := g_rcl_logging_num_out_handlers st;
     g_rcl_logging_stdout_enabled := g_rcl_logging_stdout_enabled st;
     g_rcl_logging_rosout_enabled := g_rcl_logging_rosout_enabled st;
     g_rcl_logging_ext_lib_enabled := g_rcl_logging_ext_lib_enabled st;
     trace := t |}.

(** The statics as the loader leaves them. *)
Definition initial_state : state :=
  {| __logger_map := ∅;
     __is_initialized := false;
     __rosout_allocator := None;
     g_rcl_logging_out_handlers := replicate RCL_LOGGING_MAX_OUTPUT_FUNCS None;
     g_rcl_logging_num_out_handlers := 0;
     g_rcl_logging_stdout_enabled := false;
     g_rcl_logging_rosout_enabled := false;
     g_rcl_logging_ext_lib_enabled := false;
     trace := [] |}.

(** ** A state monad with faults

    [None] is a fault: the C code dereferenced a null pointer. *)
Definition M (A : Type) : Type := state -> option (A * state).

#[global] Instance M_ret : MRet M := fun A a st => Some (a, st).
#[global] Instance M_bind : MBind M := fun A B f c st =>
  match c st with
  | Some (a, st') => f a st'
  | None => None
  end.

Definition get {A} (proj : state -> A) : M A := fun st => Some (proj st, st).
Definition modify (f : state -> state) : M unit := fun st => Some (tt, f st).
Definition emit (e : event) : M unit := modify (fun st => set_trace (trace st ++ [e]) st).
Definition deref {A} (p : option A) : M A := fun st =>
  match p with
  | Some a => Some (a, st)
  | None => None
  end.

(** ** The collaborators as monadic calls *)

Section Program.

Variable w : World.

Definition RCL_SET_ERROR_MSG (text : string) : M unit := emit (EvSetErrorMsg text).

(** [rcutils_hash_map_init] on the zero-initialised [__logger_map]; on
    success the map exists and is empty. *)
Definition rcutils_hash_map_init : M rcl_ret_t := fun st =>
  let status := w_hash_map_init w (trace st) in
  Some (status, set_trace (trace st ++ [EvHashMapInit status]) st).

(** [rcutils_hash_map_fini]: on success the map no longer holds anything. *)
Definition rcutils_hash_map_fini : M rcl_ret_t := fun st =>
  let status := w_hash_map_fini w (trace st) in
  let st' := set_trace (trace st ++ [EvHashMapFini status]) st in
  Some (status,
        if decide (RCL_RET_OK = status) then set_logger_map ∅ st' else st').

Definition rcutils_hash_map_key_exists (key : string) : M bool :=
  m ← get __logger_map;
  emit (EvHashMapKeyExists key);;
  mret (bool_decide (is_Some (m !! key))).

(** The result of [rcutils_hash_map_get] and of
    [rcutils_hash_map_get_next_key_and_data]: the status, and the data
    written through the out-parameters when the status is
    [RCUTILS_RET_OK]. *)
Inductive found (A : Type) : Type :=
| Found (a : A)
| NotFound (status : rcl_ret_t).
Arguments Found {A} a.
Arguments NotFound {A} status.

Definition rcutils_hash_map_get (key : string) : M (found rosout_map_entry_t) :=
  m ← get __logger_map;
  emit (EvHashMapGet key);;
  mret (match m !! key with
        | Some entry => Found entry
        | None => NotFound RCUTILS_RET_NOT_FOUND
        end).

(** [rcutils_hash_map_set]: the insertion can fail (it allocates); the
    map is changed only when it succeeds. *)
Definition rcutils_hash_map_set (key : string) (entry : rosout_map_entry_t)
  : M rcl_ret_t := fun st =>
  let status := w_hash_map_set w (trace st) in
  let st' := set_trace (trace st ++ [EvHashMapSet key entry status]) st in
  Some (status,
        if decide (RCL_RET_OK = status)
        then set_logger_map (<[key := entry]> (__logger_map st')) st'
        else st').

Definition rcutils_hash_map_unset (key : string) : M rcl_ret_t := fun st =>
  let status := w_hash_map_unset w (trace st) in
  let st' := set_trace (trace st ++ [EvHashMapUnset key status]) st in
  Some (status,
        if decide (RCL_RET_OK = status)
        then set_logger_map (delete key (__logger_map st')) st'
        else st').

Definition rcl_publisher_init (n : rcl_node_t) (topic : string)
  : M (rcl_publisher_t * rcl_ret_t) := fun st =>
  let r := w_publisher_init w (trace st) n in
  Some (r, set_trace (trace st ++ [EvPublisherInit n topic (fst r) (snd r)]) st).

Definition rcl_publisher_fini (pub : rcl_publisher_t) (n : rcl_node_t)
  : M rcl_ret_t := fun st =>
  let status := w_publisher_fini w (trace st) pub n in
  Some (status, set_trace (trace st ++ [EvPublisherFini pub n status]) st).

(** [rcl_interfaces__msg__Log__create]: a fresh message, or NULL. *)
Definition rcl_interfaces__msg__Log__create : M (option rcl_interfaces__msg__Log) :=
  fun st =>
  let ok := w_Log__create w (trace st) in
  Some (if ok then Some Log__init else None,
        set_trace (trace st ++ [EvLogCreate ok]) st).

Definition rcl_interfaces__msg__Log__destroy (m : rcl_interfaces__msg__Log) : M unit :=
  emit (EvLogDestroy m).

Definition rcl_publish (pub : rcl_publisher_t) (m : rcl_interfaces__msg__Log)
  : M rcl_ret_t := fun st =>
  let status := w_publish w (trace st) pub m in
  Some (status, set_trace (trace st ++ [EvPublish pub m status]) st).

Definition rcl_logging_external_initialize (config_file : option string)
  : M rcl_ret_t := fun st =>
  let status := w_external_initialize w (trace st) config_file in
  Some (status, set_trace (trace st ++ [EvExternalInitialize config_file status]) st).

Definition rcl_logging_external_shutdown : M rcl_ret_t := fun st =>
  let status := w_external_shutdown w (trace st) in
  Some (status, set_trace (trace st ++ [EvExternalShutdown status]) st).

(** ** logging_rosout.c *)

(** [RCL_LOGGING_ROSOUT_VERIFY_INITIALIZED]: leave with [RCL_RET_OK]
    when the registry is not initialised, otherwise go on with [body]. *)
Definition RCL_LOGGING_ROSOUT_VERIFY_INITIALIZED (body : M rcl_ret_t) : M rcl_ret_t :=
  initialized ← get __is_initialized;
  if negb initialized then mret RCL_RET_OK else body.

Definition rcl_logging_rosout_init (allocator : option rcl_allocator_t) : M rcl_ret_t :=
  match allocator with
  | None =>
      RCL_SET_ERROR_MSG "allocator argument is null";;
      mret RCL_RET_INVALID_ARGUMENT
  | Some a =>
      initialized ← get __is_initialized;
      if (initialized : bool) then mret RCL_RET_OK
      else
        modify (set_logger_map ∅);;
        status ← rcutils_hash_map_init;
        (if decide (RCL_RET_OK = status)
         then modify (set_rosout_allocator (Some a));;
              modify (set_is_initialized true)
         else mret tt);;
        mret status
  end.

(** What a caller hands to [rcutils_hash_map_get_next_key_and_data] as
    [previous_key].  The keys of [__logger_map] are [const char *] values
    (line 65 gives the size of such a pointer as the key size), so the map
    takes a pointer to such a value, as [&logger_name] and [&name]
    elsewhere in the file, or NULL to start the enumeration.
    [PreviousChars] is the [const char *] itself passed in that place:
    the map then takes the characters of the name for the key. *)
Inductive previous_key_t : Type :=
| PreviousNull
| PreviousPointerTo (key : string)
| PreviousChars (key : string).

(** The entry that follows [key] in an enumeration. *)
Fixpoint entry_after (key : string) (entries : list (string * rosout_map_entry_t))
  : found (string * rosout_map_entry_t) :=
  match entries with
  | [] => NotFound RCUTILS_RET_NOT_FOUND
  | (k, _) :: rest =>
      if decide (k = key)
      then match rest with
           | [] => NotFound RCUTILS_RET_HASH_MAP_NO_MORE_ENTRIES
           | kv :: _ => Found kv
           end
      else entry_after key rest
  end.

(** [rcutils_hash_map_get_next_key_and_data]: the first entry for NULL,
    the entry after the one under [*previous_key] otherwise, in the order
    of [map_to_list].  With the characters of a name in the place of the
    pointer, the string hash function of the map reads them as a
    [const char *] and follows it: a fault. *)
Definition rcutils_hash_map_get_next_key_and_data (previous_key : previous_key_t)
  : M (found (string * rosout_map_entry_t)) :=
  match previous_key with
  | PreviousNull =>
      m ← get __logger_map;
      emit (EvHashMapGetNext None);;
      mret (match map_to_list m with
            | [] => NotFound RCUTILS_RET_HASH_MAP_NO_MORE_ENTRIES
            | kv :: _ => Found kv
            end)
  | PreviousPointerTo key =>
      m ← get __logger_map;
      emit (EvHashMapGetNext (Some key));;
      mret (entry_after key (map_to_list m))
  | PreviousChars _ => fun _ => None
  end.

(** The [while] loop of [rcl_logging_rosout_fini] (lines 83-90).  [next]
    is what the last call of [rcutils_hash_map_get_next_key_and_data]
    gave: the loop goes on while that was [RCUTILS_RET_OK], and the result
    is the value of [status] when it is left.  Line 88 passes [key], the
    [const char *] the last call wrote, not [&key].  [turns] bounds the
    number of turns; one is enough (lemma
    [fini_outstanding_publishers_turn]), and the function is only run with
    at least one. *)
Fixpoint fini_outstanding_publishers
    (turns : nat) (next : found (string * rosout_map_entry_t)) : M rcl_ret_t :=
  match next with
  | NotFound status => mret status
  | Found (key, entry) =>
      match turns with
      | O => fun _ => None
      | S turns' =>
          status ← rcl_publisher_fini (publisher entry) (node entry);
          if decide (RCL_RET_OK = status)
          then
            next' ← rcutils_hash_map_get_next_key_and_data (PreviousChars key);
            fini_outstanding_publishers turns' next'
          else mret status
      end
  end.

Definition rcl_logging_rosout_fini : M rcl_ret_t :=
  RCL_LOGGING_ROSOUT_VERIFY_INITIALIZED (
    m ← get __logger_map;
    first ← rcutils_hash_map_get_next_key_and_data PreviousNull;
    status ← fini_outstanding_publishers (S (size m)) first;
    let status :=
      if decide (RCUTILS_RET_HASH_MAP_NO_MORE_ENTRIES = status)
      then RCL_RET_OK else status in
    status ← (if decide (RCL_RET_OK = status)
              then rcutils_hash_map_fini else mret status);
    (if decide (RCL_RET_OK = status)
     then modify (set_is_initialized false) else mret tt);;
    mret status).

Definition rcl_logging_rosout_init_publisher_for_node (node_ptr : option rcl_node_t)
  : M rcl_ret_t :=
  RCL_LOGGING_ROSOUT_VERIFY_INITIALIZED (
    match node_ptr with
    | None =>
        RCL_SET_ERROR_MSG "node argument is null";;
        mret RCL_RET_INVALID_ARGUMENT
    | Some n =>
        match rcl_node_get_logger_name n with
        | None =>
            RCL_SET_ERROR_MSG "Logger name was null.";;
            mret RCL_RET_ERROR
        | Some logger_name =>
            exists_ ← rcutils_hash_map_key_exists logger_name;
            if (exists_ : bool) then
              RCL_SET_ERROR_MSG "Logger already initialized for node.";;
              mret RCL_RET_ALREADY_INIT
            else
              r ← rcl_publisher_init n ROSOUT_TOPIC_NAME;
              let status := snd r in
              if decide (RCL_RET_OK = status) then
                let new_entry := {| node := n; publisher := fst r |} in
                status ← rcutils_hash_map_set logger_name new_entry;
                (if decide (RCL_RET_OK = status) then mret tt
                 else
                   RCL_SET_ERROR_MSG "Failed to add publisher to map.";;
                   _ ← rcl_publisher_fini (publisher new_entry) (node new_entry);
                   mret tt);;
                mret status
              else mret status
        end
    end).

Definition rcl_logging_rosout_fini_publisher_for_node (node_ptr : option rcl_node_t)
  : M rcl_ret_t :=
  RCL_LOGGING_ROSOUT_VERIFY_INITIALIZED (
    match node_ptr with
    | None =>
        RCL_SET_ERROR_MSG "node argument is null";;
        mret RCL_RET_INVALID_ARGUMENT
    | Some n =>
        match rcl_node_get_logger_name n with
        | None => mret RCL_RET_ERROR
        | Some logger_name =>
            exists_ ← rcutils_hash_map_key_exists logger_name;
            if negb exists_ then mret RCL_RET_NOT_INIT
            else
              r ← rcutils_hash_map_get logger_name;
              status ← match r with
                       | Found entry =>
                           rcl_publisher_fini (publisher entry) (node entry)
                       | NotFound status => mret status
                       end;
              status ← (if decide (RCL_RET_OK = status)
                        then rcutils_hash_map_unset logger_name
                        else mret status);
              mret status
        end
    end).

Definition rcl_logging_rosout_output_handler
    (location : option rcutils_log_location_t) (severity : Z) (name : string)
    (timestamp : Z) (log_str : string) : M unit :=
  initialized ← get __is_initialized;
  if negb initialized then mret tt
  else
    r ← rcutils_hash_map_get name;
    match r with
    | Found entry =>
        created ← rcl_interfaces__msg__Log__create;
        match created with
        | Some log_message =>
            let sec := Z.quot timestamp 1000000000 in
            let nanosec := Z.rem timestamp 1000000000 in
            (* location->line_number: the first of three reads through
               the pointer, none of them guarded *)
            loc ← deref location;
            let log_message :=
              {| stamp_sec := sec;
                 stamp_nanosec := nanosec;
                 level := severity;
                 line := line_number loc;
                 log_name := name;
                 log_msg := log_str;
                 log_file := file_name loc;
                 log_function := function_name loc |} in
            _ ← rcl_publish (publisher entry) log_message;
            rcl_interfaces__msg__Log__destroy log_message
        | None => mret tt
        end
    | NotFound _ => mret tt
    end.

(** ** logging.c *)

(** The fields of [global_args->impl] that [rcl_logging_configure] reads. *)
Record rcl_arguments_impl_t := {
  log_level : Z;
  external_log_config_file : option string;
  log_stdout_disabled : bool;
  log_rosout_disabled : bool;
  log_ext_lib_disabled : bool
}.

Record rcl_arguments_t := { impl : rcl_arguments_impl_t }.

Definition rcutils_logging_console_output_handler
    (location : option rcutils_log_location_t) (severity : Z) (name : string)
    (timestamp : Z) (log_str : string) : M unit :=
  emit (EvConsoleOutput location severity name timestamp log_str).

Definition rcl_logging_ext_lib_output_handler
    (location : option rcutils_log_location_t) (severity : Z) (name : string)
    (timestamp : Z) (log_str : string) : M unit :=
  emit (EvExternalLog severity name log_str).

(** A call through a slot of [g_rcl_logging_out_handlers]. *)
Definition call_output_handler (h : rcutils_logging_output_handler_t)
    (location : option rcutils_log_location_t) (severity : Z) (name : string)
    (timestamp : Z) (log_str : string) : M unit :=
  match h with
  | console_output_handler =>
      rcutils_logging_console_output_handler location severity name timestamp log_str
  | rosout_output_handler =>
      rcl_logging_rosout_output_handler location severity name timestamp log_str
  | ext_lib_output_handler =>
      rcl_logging_ext_lib_output_handler location severity name timestamp log_str
  end.

(** [g_rcl_logging_out_handlers[g_rcl_logging_num_out_handlers++] = h];
    the counter is a [uint8_t]. *)
Definition append_out_handler (h : rcutils_logging_output_handler_t) : M unit :=
  modify (fun st =>
    let i := g_rcl_logging_num_out_handlers st in
    set_num_out_handlers ((i + 1) mod 256)
      (set_out_handlers (<[Z.to_nat i := Some h]> (g_rcl_logging_out_handlers st)) st)).

Definition rcl_logging_configure
    (global_args : rcl_arguments_t) (allocator : option rcl_allocator_t)
  : M rcl_ret_t :=
  emit EvLoggingAutoinit;;
  let default_level := log_level (impl global_args) in
  let config_file := external_log_config_file (impl global_args) in
  modify (set_enabled (negb (log_stdout_disabled (impl global_args)))
                      (negb (log_rosout_disabled (impl global_args)))
                      (negb (log_ext_lib_disabled (impl global_args))));;
  let status := RCL_RET_OK in
  modify (set_num_out_handlers 0);;
  (if 0 <=? default_level
   then emit (EvSetDefaultLoggerLevel default_level) else mret tt);;
  stdout_enabled ← get g_rcl_logging_stdout_enabled;
  (if (stdout_enabled : bool)
   then append_out_handler console_output_handler else mret tt);;
  rosout_enabled ← get g_rcl_logging_rosout_enabled;
  status ← (if (rosout_enabled : bool) then
              status ← rcl_logging_rosout_init allocator;
              (if decide (RCL_RET_OK = status)
               then append_out_handler rosout_output_handler else mret tt);;
              mret status
            else mret status);
  ext_lib_enabled ← get g_rcl_logging_ext_lib_enabled;
  status ← (if (ext_lib_enabled : bool) then
              status ← rcl_logging_external_initialize config_file;
              (if decide (RCL_RET_OK = status)
               then emit (EvExternalSetLoggerLevel None default_level);;
                    append_out_handler ext_lib_output_handler
               else mret tt);;
              mret status
            else mret status);
  emit EvSetOutputHandlerMultiple;;
  mret status.

Definition rcl_logging_fini : M rcl_ret_t :=
  let status := RCL_RET_OK in
  emit EvSetOutputHandlerConsole;;
  rosout_enabled ← get g_rcl_logging_rosout_enabled;
  status ← (if (rosout_enabled : bool)
            then rcl_logging_rosout_fini else mret status);
  ext_lib_enabled ← get g_rcl_logging_ext_lib_enabled;
  status ← (if bool_decide (RCL_RET_OK = status) && ext_lib_enabled
            then rcl_logging_external_shutdown else mret status);
  mret status.

(** The [for] loop of [rcl_logging_multiple_output_handler], from index
    [i] on.  Both statics are read again at every turn, as the condition
    of the loop does.  [i] is a [uint8_t]: it takes at most 256 values
    before the condition [i < g_rcl_logging_num_out_handlers] fails, which
    is what [turns] counts down. *)
Fixpoint multiple_output_handler_from (turns : nat) (i : Z)
    (location : option rcutils_log_location_t) (severity : Z) (name : string)
    (timestamp : Z) (log_str : string) : M unit :=
  match turns with
  | O => mret tt
  | S turns' =>
      num ← get g_rcl_logging_num_out_handlers;
      handlers ← get g_rcl_logging_out_handlers;
      if i <? num then
        match handlers !! Z.to_nat i with
        | Some (Some h) =>
            call_output_handler h location severity name timestamp log_str;;
            multiple_output_handler_from turns' ((i + 1) mod 256)
              location severity name timestamp log_str
        | _ => mret tt
        end
      else mret tt
  end.

Definition rcl_logging_multiple_output_handler
    (location : option rcutils_log_location_t) (severity : Z) (name : string)
    (timestamp : Z) (log_str : string) : M unit :=
  multiple_output_handler_from 256 0 location severity name timestamp log_str.

End Program.

Arguments fini_outstanding_publishers : simpl never.

Arguments Found {A} a.
Arguments NotFound {A} status.

(** ** Concrete worlds, inputs and states *)

(** Every collaborator call succeeds; a publisher is numbered by the
    length of the trace at its creation. *)
Definition world_ok : World :=
  {| w_hash_map_init := fun _ => RCL_RET_OK;
     w_hash_map_fini := fun _ => RCL_RET_OK;
     w_hash_map_set := fun _ => RCL_RET_OK;
     w_hash_map_unset := fun _ => RCL_RET_OK;
     w_publisher_init := fun t _ => ({| publisher_id := length t |}, RCL_RET_OK);
     w_publisher_fini := fun _ _ _ => RCL_RET_OK;
     w_Log__create := fun _ => true;
     w_publish := fun _ _ _ => RCL_RET_OK;
     w_external_initialize := fun _ _ => RCL_RET_OK;
     w_external_shutdown := fun _ => RCL_RET_OK |}.

(** As [world_ok], but no memory for a Log message. *)
Definition world_no_message : World :=
  {| w_hash_map_init := fun _ => RCL_RET_OK;
     w_hash_map_fini := fun _ => RCL_RET_OK;
     w_hash_map_set := fun _ => RCL_RET_OK;
     w_hash_map_unset := fun _ => RCL_RET_OK;
     w_publisher_init := fun t _ => ({| publisher_id := length t |}, RCL_RET_OK);
     w_publisher_fini := fun _ _ _ => RCL_RET_OK;
     w_Log__create := fun _ => false;
     w_publish := fun _ _ _ => RCL_RET_OK;
     w_external_initialize := fun _ _ => RCL_RET_OK;
     w_external_shutdown := fun _ => RCL_RET_OK |}.

(** As [world_ok], but the hash map cannot allocate: neither its creation
    nor an insertion succeeds. *)
Definition world_no_map_memory : World :=
  {| w_hash_map_init := fun _ => RCL_RET_BAD_ALLOC;
     w_hash_map_fini := fun _ => RCL_RET_OK;
     w_hash_map_set := fun _ => RCL_RET_BAD_ALLOC;
     w_hash_map_unset := fun _ => RCL_RET_OK;
     w_publisher_init := fun t _ => ({| publisher_id := length t |}, RCL_RET_OK);
     w_publisher_fini := fun _ _ _ => RCL_RET_OK;
     w_Log__create := fun _ => true;
     w_publish := fun _ _ _ => RCL_RET_OK;
     w_external_initialize := fun _ _ => RCL_RET_OK;
     w_external_shutdown := fun _ => RCL_RET_OK |}.

(** As [world_ok], but a publisher cannot be finalised. *)
Definition world_publisher_fini_fails : World :=
  {| w_hash_map_init := fun _ => RCL_RET_OK;
     w_hash_map_fini := fun _ => RCL_RET_OK;
     w_hash_map_set := fun _ => RCL_RET_OK;
     w_hash_map_unset := fun _ => RCL_RET_OK;
     w_publisher_init := fun t _ => ({| publisher_id := length t |}, RCL_RET_OK);
     w_publisher_fini := fun _ _ _ => RCL_RET_ERROR;
     w_Log__create := fun _ => true;
     w_publish := fun _ _ _ => RCL_RET_OK;
     w_external_initialize := fun _ _ => RCL_RET_OK;
     w_external_shutdown := fun _ => RCL_RET_OK |}.

Definition the_allocator : rcl_allocator_t := {| allocator_id := 0 |}.

Definition nav : rcl_node_t :=
  {| node_id := 1; rcl_node_get_logger_name := Some "nav" |}.

Definition here : rcutils_log_location_t :=
  {| function_name := "plan"; file_name := "nav.c"; line_number := 42 |}.

(** The state a call leaves behind (the state it started in, had it
    faulted). *)
Definition state_after {A} (c : M A) (st : state) : state :=
  match c st with
  | Some (_, st') => st'
  | None => st
  end.

(** The registry initialised, nothing registered. *)
Definition initialized_state : state :=
  state_after (rcl_logging_rosout_init world_ok (Some the_allocator)) initial_state.

(** The registry initialised and [nav] registered. *)
Definition nav_registered_state : state :=
  state_after (rcl_logging_rosout_init_publisher_for_node world_ok (Some nav))
              initialized_state.

(** ** Observations on a trace *)

(** The events a call added: those of [st'] past the trace of [st]. *)
Definition new_events (st st' : state) : list event :=
  drop (length (trace st)) (trace st').

(** The publish calls in a list of events. *)
Definition publishes (evs : list event)
  : list (rcl_publisher_t * rcl_interfaces__msg__Log) :=
  omap (fun e => match e with
                 | EvPublish pub m _ => Some (pub, m)
                 | _ => None
                 end) evs.

Definition is_external_shutdown (e : event) : bool :=
  match e with
  | EvExternalShutdown _ => true
  | _ => false
  end.

(** What the registry consists of. *)
Definition registry (st : state)
  : gmap string rosout_map_entry_t * bool * option rcl_allocator_t :=
  (__logger_map st, __is_initialized st, __rosout_allocator st).

(** The message [rcl_logging_rosout_output_handler] fills in for a
    record with a location. *)
Definition log_message_of (location : rcutils_log_location_t) (severity : Z)
    (name : string) (timestamp : Z) (log_str : string)
  : rcl_interfaces__msg__Log :=
  {| stamp_sec := Z.quot timestamp 1000000000;
     stamp_nanosec := Z.rem timestamp 1000000000;
     level := severity;
     line := line_number location;
     log_name := name;
     log_msg := log_str;
     log_file := file_name location;
     log_function := function_name location |}.

(** The round trip as the design document words it: the handler returns,
    the call made exactly one publish, on the publisher stored for the
    logger name, of a message that carries the split timestamp, the
    severity and the strings of the record, and the message was released
    afterwards. *)
Definition publishes_record_once (w : World) (st : state)
    (location : option rcutils_log_location_t) (severity : Z) (name : string)
    (timestamp : Z) (log_str : string) : Prop :=
  exists st' entry m,
    __logger_map st !! name = Some entry
    /\ rcl_logging_rosout_output_handler w location severity name timestamp
         log_str st = Some (tt, st')
    /\ publishes (new_events st st') = [(publisher entry, m)]
    /\ stamp_sec m = Z.quot timestamp 1000000000
    /\ stamp_nanosec m = Z.rem timestamp 1000000000
    /\ level m = severity
    /\ log_name m = name
    /\ log_msg m = log_str
    /\ (forall loc, location = Some loc ->
          log_file m = file_name loc /\ log_function m = function_name loc)
    /\ last (new_events st st') = Some (EvLogDestroy m).

(** ** Observations on the dispatcher *)

(** The sinks of a configuration, in the order [rcl_logging_configure]
    appends them. *)
Definition configured_sinks (stdout rosout ext_lib : bool)
  : list rcutils_logging_output_handler_t :=
  (if stdout then [console_output_handler] else [])
  ++ (if rosout then [rosout_output_handler] else [])
  ++ (if ext_lib then [ext_lib_output_handler] else []).

(** The handlers in the first [n] slots, up to the first empty one. *)
Fixpoint active_prefix (n : nat)
    (slots : list (option rcutils_logging_output_handler_t))
  : list rcutils_logging_output_handler_t :=
  match n, slots with
  | S n', Some h :: rest => h :: active_prefix n' rest
  | _, _ => []
  end.

(** The active handler list of the dispatcher. *)
Definition active_handlers (st : state) : list rcutils_logging_output_handler_t :=
  active_prefix (Z.to_nat (g_rcl_logging_num_out_handlers st))
                (g_rcl_logging_out_handlers st).

(** Calling the handlers of a list one after the other. *)
Fixpoint call_output_handlers (w : World)
    (hs : list rcutils_logging_output_handler_t)
    (location : option rcutils_log_location_t) (severity : Z) (name : string)
    (timestamp : Z) (log_str : string) : M unit :=
  match hs with
  | [] => mret tt
  | h :: rest =>
      call_output_handler w h location severity name timestamp log_str;;
      call_output_handlers w rest location severity name timestamp log_str
  end.

(** The sinks the second of two configurations asks for and got started:
    the console when enabled, the registry sink when enabled and
    [rcl_logging_rosout_init] returned [RCL_RET_OK] (the allocator was not
    null and the registry is initialised afterwards), the external sink
    when enabled and its initialisation, whose status the call returns,
    succeeded. *)
Definition sinks_of_configuration (global_args : rcl_arguments_t)
    (allocator : option rcl_allocator_t) (status : rcl_ret_t) (st' : state)
  : list rcutils_logging_output_handler_t :=
  configured_sinks
    (negb (log_stdout_disabled (impl global_args)))
    (negb (log_rosout_disabled (impl global_args))
     && bool_decide (is_Some allocator) && __is_initialized st')
    (negb (log_ext_lib_disabled (impl global_args))
     && bool_decide (status = RCL_RET_OK)).

(** Every sink enabled, no threshold given, no configuration file. *)
Definition all_sinks : rcl_arguments_t :=
  {| impl := {| log_level := -1;
                external_log_config_file := None;
                log_stdout_disabled := false;
                log_rosout_disabled := false;
                log_ext_lib_disabled := false |} |}.

(** Only the console enabled. *)
Definition console_only : rcl_arguments_t :=
  {| impl := {| log_level := -1;
                external_log_config_file := None;
                log_stdout_disabled := false;
                log_rosout_disabled := true;
                log_ext_lib_disabled := true |} |}.

(** Every sink configured and started, and [nav] registered. *)
Definition all_sinks_nav_state : state :=
  state_after (rcl_logging_rosout_init_publisher_for_node world_ok (Some nav))
    (state_after (rcl_logging_configure world_ok all_sinks (Some the_allocator))
       initial_state).

(** The claim about shutdown as the design document words it: the call
    returns, it made a call to the external library's shutdown, and its
    status is the first error among the registry teardown and that
    shutdown. *)
Definition shutdown_attempts_both (w : World) (st : state) : Prop :=
  exists status st' registry_status external_status,
    rcl_logging_fini w st = Some (status, st')
    /\ In (EvExternalShutdown external_status) (new_events st st')
    /\ fst <$> rcl_logging_rosout_fini w
                 (set_trace (trace st ++ [EvSetOutputHandlerConsole]) st)
       = Some registry_status
    /\ status = (if decide (registry_status = RCL_RET_OK)
                 then external_status else registry_status).

(** ** Further observations *)

(** The statics of logging.c. *)
Definition dispatcher (st : state)
  : list (option rcutils_logging_output_handler_t) * Z * bool * bool * bool :=
  (g_rcl_logging_out_handlers st, g_rcl_logging_num_out_handlers st,
   g_rcl_logging_stdout_enabled st, g_rcl_logging_rosout_enabled st,
   g_rcl_logging_ext_lib_enabled st).

Definition is_set_error_msg (e : event) : bool :=
  match e with
  | EvSetErrorMsg _ => true
  | _ => false
  end.

(** The publisher teardowns in a list of events, with their status. *)
Definition publisher_finis (evs : list event)
  : list (rcl_publisher_t * rcl_node_t * rcl_ret_t) :=
  omap (fun e => match e with
                 | EvPublisherFini pub n status => Some (pub, n, status)
                 | _ => None
                 end) evs.

(** The calls to [rcutils_hash_map_fini] in a list of events. *)
Definition hash_map_finis (evs : list event) : list rcl_ret_t :=
  omap (fun e => match e with
                 | EvHashMapFini status => Some status
                 | _ => None
                 end) evs.

(** The calls to [rcutils_hash_map_init] in a list of events. *)
Definition hash_map_inits (evs : list event) : list rcl_ret_t :=
  omap (fun e => match e with
                 | EvHashMapInit status => Some status
                 | _ => None
                 end) evs.

(** The calls to [rcutils_logging_set_default_logger_level]. *)
Definition default_logger_levels (evs : list event) : list Z :=
  omap (fun e => match e with
                 | EvSetDefaultLoggerLevel lvl => Some lvl
                 | _ => None
                 end) evs.

(** The calls to [rcl_logging_external_initialize], with their status. *)
Definition external_initializes (evs : list event)
  : list (option string * rcl_ret_t) :=
  omap (fun e => match e with
                 | EvExternalInitialize config_file status =>
                     Some (config_file, status)
                 | _ => None
                 end) evs.

(** The calls to [rcl_logging_external_set_logger_level]. *)
Definition external_logger_levels (evs : list event)
  : list (option string * Z) :=
  omap (fun e => match e with
                 | EvExternalSetLoggerLevel logger lvl => Some (logger, lvl)
                 | _ => None
                 end) evs.

(** The calls to [rcl_logging_external_shutdown], with their status. *)
Definition external_shutdowns (evs : list event) : list rcl_ret_t :=
  omap (fun e => match e with
                 | EvExternalShutdown status => Some status
                 | _ => None
                 end) evs.

(** A node without a logger name. *)
Definition nameless : rcl_node_t :=
  {| node_id := 3; rcl_node_get_logger_name := None |}.

(** Every sink configured and started, no node registered. *)
Definition all_sinks_state : state :=
  state_after (rcl_logging_configure world_ok all_sinks (Some the_allocator))
              initial_state.

(** A threshold and a configuration file given, the registry sink off. *)
Definition console_and_external : rcl_arguments_t :=
  {| impl := {| log_level := 30;
                external_log_config_file := Some "log.conf";
                log_stdout_disabled := false;
                log_rosout_disabled := true;
                log_ext_lib_disabled := false |} |}.

(** As [world_ok], but the external library does not start. *)
Definition world_no_external : World :=
  {| w_hash_map_init := fun _ => RCL_RET_OK;
     w_hash_map_fini := fun _ => RCL_RET_OK;
     w_hash_map_set := fun _ => RCL_RET_OK;
     w_hash_map_unset := fun _ => RCL_RET_OK;
     w_publisher_init := fun t _ => ({| publisher_id := length t |}, RCL_RET_OK);
     w_publisher_fini := fun _ _ _ => RCL_RET_OK;
     w_Log__create := fun _ => true;
     w_publish := fun _ _ _ => RCL_RET_OK;
     w_external_initialize := fun _ _ => RCL_RET_ERROR;
     w_external_shutdown := fun _ => RCL_RET_OK |}.

(** ** Running the monad *)

Tactic Notation "unfold_calls" :=
  unfold rcl_logging_rosout_init, rcl_logging_rosout_fini,
    rcl_logging_rosout_init_publisher_for_node,
    rcl_logging_rosout_fini_publisher_for_node,
    rcl_logging_rosout_output_handler,
    RCL_LOGGING_ROSOUT_VERIFY_INITIALIZED, RCL_SET_ERROR_MSG,
    rcutils_hash_map_init, rcutils_hash_map_fini, rcutils_hash_map_key_exists,
    rcutils_hash_map_get, rcutils_hash_map_set, rcutils_hash_map_unset,
    rcutils_hash_map_get_next_key_and_data,
    rcl_publisher_init, rcl_publisher_fini,
    rcl_interfaces__msg__Log__create, rcl_interfaces__msg__Log__destroy,
    rcl_publish, rcl_logging_external_initialize, rcl_logging_external_shutdown,
    rcl_logging_configure, rcl_logging_fini, append_out_handler,
    call_output_handler, rcutils_logging_console_output_handler,
    rcl_logging_ext_lib_output_handler,
    emit, modify, get, deref, mbind, mret, M_bind, M_ret.

Tactic Notation "unfold_calls" "in" hyp(H) :=
  unfold rcl_logging_rosout_init, rcl_logging_rosout_fini,
    rcl_logging_rosout_init_publisher_for_node,
    rcl_logging_rosout_fini_publisher_for_node,
    rcl_logging_rosout_output_handler,
    RCL_LOGGING_ROSOUT_VERIFY_INITIALIZED, RCL_SET_ERROR_MSG,
    rcutils_hash_map_init, rcutils_hash_map_fini, rcutils_hash_map_key_exists,
    rcutils_hash_map_get, rcutils_hash_map_set, rcutils_hash_map_unset,
    rcutils_hash_map_get_next_key_and_data,
    rcl_publisher_init, rcl_publisher_fini,
    rcl_interfaces__msg__Log__create, rcl_interfaces__msg__Log__destroy,
    rcl_publish, rcl_logging_external_initialize, rcl_logging_external_shutdown,
    rcl_logging_configure, rcl_logging_fini, append_out_handler,
    call_output_handler, rcutils_logging_console_output_handler,
    rcl_logging_ext_lib_output_handler,
    emit, modify, get, deref, mbind, mret, M_bind, M_ret in H.

Lemma new_events_app (st st' : state) (evs : list event) :
  trace st' = trace st ++ evs -> new_events st st' = evs.
Proof.
  intros H. unfold new_events. rewrite H. apply drop_app_length.
Qed.

Lemma trace_extends_refl (t : list event) : t = t ++ [].
Proof. symmetry. apply app_nil_r. Qed.

Lemma trace_extends_snoc (t t' evs : list event) (e : event) :
  t' = t ++ evs -> t' ++ [e] = t ++ (evs ++ [e]).
Proof. intros ->. symmetry. apply app_assoc. Qed.


(** ** The publisher registry *)

Section Registry.

Variable w : World.

(** The guard every entry point starts with. *)
Lemma not_initialized_returns
    (st : state) (node_ptr : option rcl_node_t)
    (location : option rcutils_log_location_t) (severity : Z) (name : string)
    (timestamp : Z) (log_str : string) :
  __is_initialized st = false ->
  rcl_logging_rosout_init_publisher_for_node w node_ptr st = Some (RCL_RET_OK, st)
  /\ rcl_logging_rosout_fini_publisher_for_node w node_ptr st = Some (RCL_RET_OK, st)
  /\ rcl_logging_rosout_fini w st = Some (RCL_RET_OK, st)
  /\ rcl_logging_rosout_output_handler w location severity name timestamp log_str st
     = Some (tt, st).
Proof.
  intros Hinit. unfold_calls. rewrite Hinit. simpl. auto.
Qed.

(** C9: while the registry is uninitialised, registering or unregistering
    a node and finalising the registry return [RCL_RET_OK] and leave the
    whole state as it was, trace included (so no call reached the hash map
    or a publisher), and the rosout output handler returns without a
    call either. *)
Theorem uninitialized_registry_is_inert
    (st : state) (node_ptr : option rcl_node_t)
    (location : option rcutils_log_location_t) (severity : Z) (name : string)
    (timestamp : Z) (log_str : string) :
  __is_initialized st = false ->
  rcl_logging_rosout_init_publisher_for_node w node_ptr st = Some (RCL_RET_OK, st)
  /\ rcl_logging_rosout_fini_publisher_for_node w node_ptr st = Some (RCL_RET_OK, st)
  /\ rcl_logging_rosout_fini w st = Some (RCL_RET_OK, st)
  /\ rcl_logging_rosout_output_handler w location severity name timestamp log_str st
     = Some (tt, st).
Proof.
  intros Hinit.
  destruct (not_initialized_returns st node_ptr location severity name
              timestamp log_str Hinit) as (Hreg & Hunreg & Hfini & Hout).
  repeat split; assumption.
Qed.

(** C10: when the creation of the hash map fails in
    [rcl_logging_rosout_init], the status of that failure is returned, the
    flag stays false and the recorded allocator is what it was; every
    later per-node call, [rcl_logging_rosout_fini] and the output handler
    then do nothing and report success. *)
Theorem init_failure_keeps_registry_uninitialized
    (st : state) (a : rcl_allocator_t) (e : rcl_ret_t) :
  __is_initialized st = false ->
  w_hash_map_init w (trace st) = e ->
  e <> RCL_RET_OK ->
  exists st',
    rcl_logging_rosout_init w (Some a) st = Some (e, st')
    /\ __is_initialized st' = false
    /\ __rosout_allocator st' = __rosout_allocator st
    /\ new_events st st' = [EvHashMapInit e]
    /\ forall node_ptr location severity name timestamp log_str,
         rcl_logging_rosout_init_publisher_for_node w node_ptr st'
           = Some (RCL_RET_OK, st')
         /\ rcl_logging_rosout_fini_publisher_for_node w node_ptr st'
           = Some (RCL_RET_OK, st')
         /\ rcl_logging_rosout_fini w st' = Some (RCL_RET_OK, st')
         /\ rcl_logging_rosout_output_handler w location severity name
              timestamp log_str st' = Some (tt, st').
Proof.
  intros Hinit He Hne.
  eexists. split.
  { unfold_calls. rewrite Hinit. simpl. rewrite He.
    destruct (decide (RCL_RET_OK = e)) as [Heq | _]; [congruence | reflexivity]. }
  simpl. split; [assumption |]. split; [reflexivity |]. split.
  - apply new_events_app. reflexivity.
  - intros. apply not_initialized_returns. assumption.
Qed.

(** C6: when the publisher was created and the insertion into the map
    then fails, [rcl_logging_rosout_init_publisher_for_node] finalises the
    publisher it created (the last call it makes), returns the status of
    the insertion whatever that teardown returned, and the registry holds
    no entry for the logger name. *)
Theorem insertion_failure_tears_down_publisher
    (st : state) (n : rcl_node_t) (logger_name : string)
    (pub : rcl_publisher_t) (e : rcl_ret_t) :
  __is_initialized st = true ->
  rcl_node_get_logger_name n = Some logger_name ->
  __logger_map st !! logger_name = None ->
  w_publisher_init w (trace st ++ [EvHashMapKeyExists logger_name]) n
    = (pub, RCL_RET_OK) ->
  w_hash_map_set w ((trace st ++ [EvHashMapKeyExists logger_name])
                      ++ [EvPublisherInit n ROSOUT_TOPIC_NAME pub RCL_RET_OK]) = e ->
  e <> RCL_RET_OK ->
  exists st' fini_status,
    rcl_logging_rosout_init_publisher_for_node w (Some n) st = Some (e, st')
    /\ new_events st st' =
         [EvHashMapKeyExists logger_name;
          EvPublisherInit n ROSOUT_TOPIC_NAME pub RCL_RET_OK;
          EvHashMapSet logger_name {| node := n; publisher := pub |} e;
          EvSetErrorMsg "Failed to add publisher to map.";
          EvPublisherFini pub n fini_status]
    /\ registry st' = registry st
    /\ __logger_map st' !! logger_name = None.
Proof.
  intros Hinit Hname Hfree Hpub Hset Hne.
  eexists. eexists. split.
  { unfold_calls. rewrite Hinit, Hname. simpl. rewrite Hfree. simpl.
    rewrite Hpub. simpl. rewrite Hset.
    destruct (decide (RCL_RET_OK = e)) as [Heq | _]; [congruence |].
    simpl. destruct (decide (RCL_RET_OK = e)) as [Heq | _]; [congruence |].
    reflexivity. }
  simpl. split.
  { apply new_events_app. simpl. rewrite <- !app_assoc. reflexivity. }
  split; [reflexivity | assumption].
Qed.

(** What a successful registration on an initialised registry went
    through. *)
Lemma registration_succeeded
    (st st1 : state) (node_ptr : option rcl_node_t) :
  __is_initialized st = true ->
  rcl_logging_rosout_init_publisher_for_node w node_ptr st
    = Some (RCL_RET_OK, st1) ->
  exists n logger_name pub,
    node_ptr = Some n
    /\ rcl_node_get_logger_name n = Some logger_name
    /\ __logger_map st !! logger_name = None
    /\ __is_initialized st1 = true
    /\ __logger_map st1
       = <[logger_name := {| node := n; publisher := pub |}]> (__logger_map st).
Proof.
  intros Hinit Hrun.
  unfold_calls in Hrun. rewrite Hinit in Hrun. simpl in Hrun.
  destruct node_ptr as [n |]; [| discriminate].
  destruct (rcl_node_get_logger_name n) as [logger_name |] eqn:Hname;
    [| discriminate].
  simpl in Hrun.
  destruct (__logger_map st !! logger_name) as [old |] eqn:Hold;
    simpl in Hrun; [discriminate |].
  destruct (w_publisher_init w _ n) as [pub s] eqn:Hpub. simpl in Hrun.
  destruct (decide (RCL_RET_OK = s)) as [<- | Hs]; simpl in Hrun.
  - destruct (w_hash_map_set w _) as [] eqn:Hset; simpl in Hrun;
      try discriminate.
    injection Hrun as Hst. subst st1. exists n, logger_name, pub.
    repeat split; assumption.
  - injection Hrun as Heq _. congruence.
Qed.

(** C7: on an initialised registry, after a registration that returned
    [RCL_RET_OK], registering the same node again returns
    [RCL_RET_ALREADY_INIT] without creating a publisher or touching the
    registry, which holds one entry under the node's logger name: the
    map has grown by exactly the one key of the first call. *)
Theorem second_registration_already_init
    (st st1 : state) (node_ptr : option rcl_node_t) :
  __is_initialized st = true ->
  rcl_logging_rosout_init_publisher_for_node w node_ptr st
    = Some (RCL_RET_OK, st1) ->
  exists n logger_name entry st2,
    node_ptr = Some n
    /\ rcl_node_get_logger_name n = Some logger_name
    /\ rcl_logging_rosout_init_publisher_for_node w node_ptr st1
       = Some (RCL_RET_ALREADY_INIT, st2)
    /\ registry st2 = registry st1
    /\ new_events st1 st2 =
         [EvHashMapKeyExists logger_name;
          EvSetErrorMsg "Logger already initialized for node."]
    /\ __logger_map st2 !! logger_name = Some entry
    /\ node entry = n
    /\ size (__logger_map st2) = S (size (__logger_map st)).
Proof.
  intros Hinit Hrun.
  destruct (registration_succeeded st st1 node_ptr Hinit Hrun)
    as (n & logger_name & pub & -> & Hname & Hfree & Hinit1 & Hmap1).
  exists n, logger_name, {| node := n; publisher := pub |}.
  eexists. split; [reflexivity |]. split; [assumption |]. split.
  { unfold_calls. rewrite Hinit1, Hname. simpl.
    rewrite Hmap1, lookup_insert_eq. simpl. reflexivity. }
  simpl. split; [reflexivity |]. split.
  { apply new_events_app. simpl. rewrite <- app_assoc. reflexivity. }
  rewrite Hmap1, lookup_insert_eq. split; [reflexivity |].
  split; [reflexivity |]. apply map_size_insert_None. assumption.
Qed.

(** C8: on an initialised registry and for a node with a logger name,
    [rcl_logging_rosout_fini_publisher_for_node] returns a status; with no
    entry under the name it is [RCL_RET_NOT_INIT] and the registry is as
    before; with an entry whose publisher teardown fails, the status is
    that of the teardown, the registry is as before and the entry is still
    there; and the entry is gone afterwards only if the teardown returned
    [RCL_RET_OK] (it is then deleted when the call returns [RCL_RET_OK]). *)
Theorem unregister_contract
    (st : state) (n : rcl_node_t) (logger_name : string) :
  __is_initialized st = true ->
  rcl_node_get_logger_name n = Some logger_name ->
  exists status st',
    rcl_logging_rosout_fini_publisher_for_node w (Some n) st = Some (status, st')
    /\ (__logger_map st !! logger_name = None ->
        status = RCL_RET_NOT_INIT
        /\ registry st' = registry st
        /\ new_events st st' = [EvHashMapKeyExists logger_name])
    /\ (forall entry fini_status,
          __logger_map st !! logger_name = Some entry ->
          w_publisher_fini w
            ((trace st ++ [EvHashMapKeyExists logger_name])
               ++ [EvHashMapGet logger_name])
            (publisher entry) (node entry) = fini_status ->
          (fini_status <> RCL_RET_OK ->
           status = fini_status
           /\ registry st' = registry st
           /\ __logger_map st' !! logger_name = Some entry
           /\ new_events st st' =
                [EvHashMapKeyExists logger_name; EvHashMapGet logger_name;
                 EvPublisherFini (publisher entry) (node entry) fini_status])
          /\ (__logger_map st' !! logger_name = None ->
              fini_status = RCL_RET_OK /\ status = RCL_RET_OK)
          /\ (fini_status = RCL_RET_OK -> status = RCL_RET_OK ->
              __logger_map st' = delete logger_name (__logger_map st))).
Proof.
  intros Hinit Hname.
  destruct (__logger_map st !! logger_name) as [entry |] eqn:Hentry.
  - destruct (decide (RCL_RET_OK = w_publisher_fini w
        ((trace st ++ [EvHashMapKeyExists logger_name])
           ++ [EvHashMapGet logger_name]) (publisher entry) (node entry)))
      as [Hfini | Hfini].
    + eexists. eexists. split.
      { unfold_calls. rewrite Hinit, Hname. simpl. rewrite Hentry. simpl.
        rewrite Hentry. simpl.
        destruct (decide (RCL_RET_OK = w_publisher_fini w
          ((trace st ++ [EvHashMapKeyExists logger_name])
             ++ [EvHashMapGet logger_name]) (publisher entry) (node entry)))
          as [_ | Hno]; [| contradiction].
        simpl. reflexivity. }
      split; [discriminate |].
      intros entry' fini_status Heq Hfs. injection Heq as <-. subst fini_status.
      split; [congruence |].
      destruct (decide (RCL_RET_OK = w_hash_map_unset w
        (((trace st ++ [EvHashMapKeyExists logger_name])
            ++ [EvHashMapGet logger_name])
           ++ [EvPublisherFini (publisher entry) (node entry)
                 (w_publisher_fini w
                    ((trace st ++ [EvHashMapKeyExists logger_name])
                       ++ [EvHashMapGet logger_name])
                    (publisher entry) (node entry))])))
        as [Hun | Hun]; simpl.
      * split; [auto |]. intros _ _. reflexivity.
      * rewrite Hentry. split; [discriminate |]. intros _ Hst. congruence.
    + eexists. eexists. split.
      { unfold_calls. rewrite Hinit, Hname. simpl. rewrite Hentry. simpl.
        rewrite Hentry. simpl.
        destruct (decide (RCL_RET_OK = w_publisher_fini w
          ((trace st ++ [EvHashMapKeyExists logger_name])
             ++ [EvHashMapGet logger_name]) (publisher entry) (node entry)))
          as [Hyes | _]; [contradiction |].
        simpl. reflexivity. }
      split; [discriminate |].
      intros entry' fini_status Heq Hfs. injection Heq as <-. subst fini_status.
      simpl. rewrite Hentry. split.
      * intros _. repeat split.
        apply new_events_app. simpl. rewrite <- !app_assoc. reflexivity.
      * split; [discriminate |]. intros Hok. congruence.
  - eexists. eexists. split.
    { unfold_calls. rewrite Hinit, Hname. simpl. rewrite Hentry. simpl.
      reflexivity. }
    split.
    + intros _. repeat split. apply new_events_app. reflexivity.
    + intros entry' fini_status Heq. discriminate.
Qed.

(** C1, as amended: for a record that carries a location and whose logger
    name has an entry in the initialised registry, and when the Log
    message can be created, [rcl_logging_rosout_output_handler] makes
    exactly one publish call, on the publisher of the entry, with
    stamp.sec the truncating quotient of the timestamp by 10^9, stamp.nanosec
    the remainder, level the severity, and name, msg, file and function
    those of the record; the message is destroyed right after, whatever
    status the publish call returned.  When the Log message cannot be
    created, nothing is published, whatever the location. *)
Theorem rosout_handler_publishes_record
    (st : state) (location : rcutils_log_location_t) (severity : Z)
    (name : string) (timestamp : Z) (log_str : string)
    (entry : rosout_map_entry_t) :
  __is_initialized st = true ->
  __logger_map st !! name = Some entry ->
  (w_Log__create w (trace st ++ [EvHashMapGet name]) = true ->
   exists st' publish_status,
     rcl_logging_rosout_output_handler w (Some location) severity name
       timestamp log_str st = Some (tt, st')
     /\ registry st' = registry st
     /\ new_events st st' =
          [EvHashMapGet name; EvLogCreate true;
           EvPublish (publisher entry)
             (log_message_of location severity name timestamp log_str)
             publish_status;
           EvLogDestroy (log_message_of location severity name timestamp log_str)]
     /\ publishes_record_once w st (Some location) severity name timestamp
          log_str)
  /\ (w_Log__create w (trace st ++ [EvHashMapGet name]) = false ->
      forall any_location : option rcutils_log_location_t,
      exists st',
        rcl_logging_rosout_output_handler w any_location severity name
          timestamp log_str st = Some (tt, st')
        /\ registry st' = registry st
        /\ new_events st st' = [EvHashMapGet name; EvLogCreate false]
        /\ publishes (new_events st st') = []).
Proof.
  intros Hinit Hentry. split.
  - intros Hcreate.
    assert (Hrun : exists st' publish_status,
      rcl_logging_rosout_output_handler w (Some location) severity name
        timestamp log_str st = Some (tt, st')
      /\ registry st' = registry st
      /\ new_events st st' =
           [EvHashMapGet name; EvLogCreate true;
            EvPublish (publisher entry)
              (log_message_of location severity name timestamp log_str)
              publish_status;
            EvLogDestroy
              (log_message_of location severity name timestamp log_str)]).
    { eexists. eexists. split.
      { unfold_calls. rewrite Hinit. simpl. rewrite Hentry. simpl.
        rewrite Hcreate. simpl. reflexivity. }
      simpl. split; [reflexivity |].
      apply new_events_app. simpl. rewrite <- !app_assoc. reflexivity. }
    destruct Hrun as (st' & publish_status & Hrun & Hreg & Hnew).
    exists st', publish_status. repeat split; try assumption.
    exists st', entry, (log_message_of location severity name timestamp log_str).
    rewrite Hnew.
    split; [assumption |]. split; [assumption |].
    do 6 (split; [reflexivity |]).
    split; [| reflexivity].
    intros loc Hloc. injection Hloc as <-. split; reflexivity.
  - intros Hcreate any_location.
    assert (Hrun : exists st',
      rcl_logging_rosout_output_handler w any_location severity name
        timestamp log_str st = Some (tt, st')
      /\ registry st' = registry st
      /\ new_events st st' = [EvHashMapGet name; EvLogCreate false]).
    { eexists. split.
      { unfold_calls. rewrite Hinit. simpl. rewrite Hentry. simpl.
        rewrite Hcreate. simpl. reflexivity. }
      split; [reflexivity |].
      apply new_events_app. simpl. rewrite <- app_assoc. reflexivity. }
    destruct Hrun as (st' & Hrun & Hreg & Hnew).
    exists st'. rewrite Hnew. repeat split; assumption.
Qed.

End Registry.

Lemma uninitialized_registry_is_inert_witness :
  __is_initialized initial_state = false
  /\ rcl_logging_rosout_init_publisher_for_node world_ok (Some nav) initial_state
     = Some (RCL_RET_OK, initial_state)
  /\ rcl_logging_rosout_fini_publisher_for_node world_ok (Some nav) initial_state
     = Some (RCL_RET_OK, initial_state)
  /\ rcl_logging_rosout_fini world_ok initial_state = Some (RCL_RET_OK, initial_state)
  /\ rcl_logging_rosout_output_handler world_ok None 20 "nav" 1700000000123456789
       "obstacle detected" initial_state = Some (tt, initial_state).
Proof.
  split; [reflexivity |].
  apply (uninitialized_registry_is_inert world_ok initial_state (Some nav) None
           20 "nav" 1700000000123456789 "obstacle detected").
  reflexivity.
Defined.

Lemma init_failure_keeps_registry_uninitialized_witness :
  __is_initialized initial_state = false
  /\ w_hash_map_init world_no_map_memory (trace initial_state) = RCL_RET_BAD_ALLOC
  /\ RCL_RET_BAD_ALLOC <> RCL_RET_OK
  /\ exists st',
       rcl_logging_rosout_init world_no_map_memory (Some the_allocator)
         initial_state = Some (RCL_RET_BAD_ALLOC, st')
       /\ __is_initialized st' = false
       /\ __rosout_allocator st' = None.
Proof.
  split; [reflexivity |]. split; [reflexivity |]. split; [discriminate |].
  destruct (init_failure_keeps_registry_uninitialized world_no_map_memory
              initial_state the_allocator RCL_RET_BAD_ALLOC)
    as (st' & Hrun & Hflag & Halloc & _);
    [reflexivity | reflexivity | discriminate |].
  exists st'. split; [exact Hrun |]. split; [exact Hflag | exact Halloc].
Defined.

Lemma insertion_failure_tears_down_publisher_witness :
  __is_initialized initialized_state = true
  /\ __logger_map initialized_state !! "nav" = None
  /\ exists st' fini_status,
       rcl_logging_rosout_init_publisher_for_node world_no_map_memory (Some nav)
         initialized_state = Some (RCL_RET_BAD_ALLOC, st')
       /\ last (new_events initialized_state st')
          = Some (EvPublisherFini {| publisher_id := 2 |} nav fini_status)
       /\ __logger_map st' !! "nav" = None.
Proof.
  split; [reflexivity |]. split; [reflexivity |].
  destruct (insertion_failure_tears_down_publisher world_no_map_memory
              initialized_state nav "nav" {| publisher_id := 2 |}
              RCL_RET_BAD_ALLOC)
    as (st' & fini_status & Hrun & Hnew & _ & Hgone);
    [reflexivity | reflexivity | reflexivity | reflexivity | reflexivity
    | discriminate |].
  exists st', fini_status. split; [exact Hrun |].
  split; [rewrite Hnew; reflexivity | exact Hgone].
Defined.

Lemma second_registration_already_init_witness :
  __is_initialized initialized_state = true
  /\ rcl_logging_rosout_init_publisher_for_node world_ok (Some nav)
       initialized_state = Some (RCL_RET_OK, nav_registered_state)
  /\ exists st2,
       rcl_logging_rosout_init_publisher_for_node world_ok (Some nav)
         nav_registered_state = Some (RCL_RET_ALREADY_INIT, st2)
       /\ size (__logger_map st2) = 1%nat.
Proof.
  split; [reflexivity |]. split; [reflexivity |].
  destruct (second_registration_already_init world_ok initialized_state
              nav_registered_state (Some nav))
    as (n & logger_name & entry & st2 & _ & _ & Hrun & _ & _ & _ & _ & Hsize);
    [reflexivity | reflexivity |].
  exists st2. split; [exact Hrun | exact Hsize].
Defined.

Lemma unregister_contract_witness :
  __is_initialized nav_registered_state = true
  /\ rcl_node_get_logger_name nav = Some "nav"
  /\ exists status st',
       rcl_logging_rosout_fini_publisher_for_node world_publisher_fini_fails
         (Some nav) nav_registered_state = Some (status, st')
       /\ status = RCL_RET_ERROR
       /\ is_Some (__logger_map st' !! "nav").
Proof.
  split; [reflexivity |]. split; [reflexivity |].
  destruct (unregister_contract world_publisher_fini_fails nav_registered_state
              nav "nav")
    as (status & st' & Hrun & _ & Hentry); [reflexivity | reflexivity |].
  exists status, st'. split; [exact Hrun |].
  destruct (Hentry {| node := nav; publisher := {| publisher_id := 2 |} |}
              RCL_RET_ERROR) as (Hfail & _); [reflexivity | reflexivity |].
  destruct Hfail as (Hstatus & _ & Hkept & _); [discriminate |].
  split; [exact Hstatus | rewrite Hkept; eexists; reflexivity].
Defined.

Lemma rosout_handler_publishes_record_witness :
  __is_initialized nav_registered_state = true
  /\ is_Some (__logger_map nav_registered_state !! "nav")
  /\ publishes_record_once world_ok nav_registered_state (Some here)
       20 "nav" 1700000000123456789 "obstacle detected".
Proof.
  split; [reflexivity |]. split; [eexists; reflexivity |].
  destruct (rosout_handler_publishes_record world_ok nav_registered_state here
              20 "nav" 1700000000123456789 "obstacle detected"
              {| node := nav; publisher := {| publisher_id := 2 |} |})
    as (Hcreated & _); [reflexivity | reflexivity |].
  destruct Hcreated as (st' & publish_status & _ & _ & _ & Honce);
    [reflexivity |].
  exact Honce.
Defined.

(** C1, as the design document states it, fails when no Log message can
    be created: [nav] is registered, and the handler returns without a
    publish call. *)
Lemma no_publish_without_message :
  __is_initialized nav_registered_state = true
  /\ is_Some (__logger_map nav_registered_state !! "nav")
  /\ ~ publishes_record_once world_no_message nav_registered_state (Some here)
         20 "nav" 1700000000123456789 "obstacle detected".
Proof.
  split; [reflexivity |]. split; [eexists; reflexivity |].
  intros (st' & entry & m & _ & Hrun & Hpub & _).
  vm_compute in Hrun. injection Hrun as <-.
  vm_compute in Hpub. discriminate.
Qed.

(** C3: a record without a location makes
    [rcl_logging_rosout_output_handler] read [location->line_number]
    through the null pointer once the entry is found and the message
    created: the call faults instead of publishing. *)
Theorem rosout_handler_null_location_faults :
  __is_initialized nav_registered_state = true
  /\ is_Some (__logger_map nav_registered_state !! "nav")
  /\ rcl_logging_rosout_output_handler world_ok None 20 "nav" 1700000000123456789
       "obstacle detected" nav_registered_state = None.
Proof.
  split; [reflexivity |]. split; [eexists; reflexivity |].
  vm_compute. reflexivity.
Qed.

(** ** The sink dispatcher *)

Section Dispatcher.

Variable w : World.

(** An output handler changes nothing but the trace. *)
Lemma call_output_handler_frame
    (h : rcutils_logging_output_handler_t)
    (location : option rcutils_log_location_t) (severity : Z) (name : string)
    (timestamp : Z) (log_str : string) (st st' : state) :
  call_output_handler w h location severity name timestamp log_str st
    = Some (tt, st') ->
  st' = set_trace (trace st') st.
Proof.
  intros Hrun. destruct st as [m i al hs num f1 f2 f3 t].
  unfold call_output_handler in Hrun.
  destruct h; unfold_calls in Hrun; simpl in Hrun.
  - injection Hrun as <-. reflexivity.
  - destruct i; simpl in Hrun.
    + destruct (m !! name) as [entry |]; simpl in Hrun.
      * destruct (w_Log__create w _); simpl in Hrun.
        -- destruct location as [loc |]; simpl in Hrun; [| discriminate].
           injection Hrun as <-. reflexivity.
        -- injection Hrun as <-. reflexivity.
      * injection Hrun as <-. reflexivity.
    + injection Hrun as <-. reflexivity.
  - injection Hrun as <-. reflexivity.
Qed.

Lemma active_prefix_lookup (n : nat) (i : nat)
    (slots : list (option rcutils_logging_output_handler_t)) :
  active_prefix (S n) (drop i slots)
  = match slots !! i with
    | Some (Some h) => h :: active_prefix n (drop (S i) slots)
    | _ => []
    end.
Proof.
  revert slots. induction i as [| i IH]; intros slots.
  - destruct slots as [| [h |] rest]; reflexivity.
  - destruct slots as [| s rest]; [reflexivity |]. simpl. apply IH.
Qed.

(** The loop visits the active handlers from slot [i] on. *)
Lemma multiple_output_handler_from_spec
    (location : option rcutils_log_location_t) (severity : Z) (name : string)
    (timestamp : Z) (log_str : string) (turns : nat) :
  forall (i : Z) (st : state),
    0 <= i ->
    g_rcl_logging_num_out_handlers st <= 255 ->
    (Z.to_nat (g_rcl_logging_num_out_handlers st - i) < turns)%nat ->
    multiple_output_handler_from w turns i location severity name timestamp
      log_str st
    = call_output_handlers w
        (active_prefix (Z.to_nat (g_rcl_logging_num_out_handlers st - i))
           (drop (Z.to_nat i) (g_rcl_logging_out_handlers st)))
        location severity name timestamp log_str st.
Proof.
  induction turns as [| turns IH]; intros i st Hi Hnum Hturns; [lia |].
  simpl. unfold mbind, M_bind, get. simpl.
  destruct (Z.ltb_spec i (g_rcl_logging_num_out_handlers st)) as [Hlt | Hge].
  - replace (Z.to_nat (g_rcl_logging_num_out_handlers st - i))
      with (S (Z.to_nat (g_rcl_logging_num_out_handlers st - (i + 1)))) by lia.
    rewrite active_prefix_lookup.
    destruct (g_rcl_logging_out_handlers st !! Z.to_nat i) as [[h |] |];
      try reflexivity.
    simpl. unfold mbind, M_bind.
    destruct (call_output_handler w h location severity name timestamp log_str st)
      as [[[] st'] |] eqn:Hcall; [| reflexivity].
    apply call_output_handler_frame in Hcall.
    rewrite Z.mod_small by lia.
    rewrite IH.
    + rewrite Hcall. simpl. 
      replace (Z.to_nat (i + 1)) with (S (Z.to_nat i)) by lia. reflexivity.
    + lia.
    + rewrite Hcall. simpl. assumption.
    + rewrite Hcall. simpl. lia.
  - replace (Z.to_nat (g_rcl_logging_num_out_handlers st - i)) with O by lia.
    reflexivity.
Qed.

Lemma multiple_output_handler_spec
    (location : option rcutils_log_location_t) (severity : Z) (name : string)
    (timestamp : Z) (log_str : string) (st : state) :
  0 <= g_rcl_logging_num_out_handlers st <= 255 ->
  rcl_logging_multiple_output_handler w location severity name timestamp
    log_str st
  = call_output_handlers w (active_handlers st) location severity name
      timestamp log_str st.
Proof.
  intros Hnum. unfold rcl_logging_multiple_output_handler, active_handlers.
  rewrite multiple_output_handler_from_spec; try lia.
  rewrite Z.sub_0_r. reflexivity.
Qed.


(** What one call of [rcl_logging_configure] leaves in the statics,
    whatever they held before. *)
Lemma configure_spec
    (global_args : rcl_arguments_t) (allocator : option rcl_allocator_t)
    (st : state) :
  length (g_rcl_logging_out_handlers st) = RCL_LOGGING_MAX_OUTPUT_FUNCS ->
  exists status st',
    rcl_logging_configure w global_args allocator st = Some (status, st')
    /\ length (g_rcl_logging_out_handlers st') = RCL_LOGGING_MAX_OUTPUT_FUNCS
    /\ g_rcl_logging_num_out_handlers st'
       = Z.of_nat (length (sinks_of_configuration global_args allocator status st'))
    /\ take (length (sinks_of_configuration global_args allocator status st'))
            (g_rcl_logging_out_handlers st')
       = Some <$> sinks_of_configuration global_args allocator status st'
    /\ g_rcl_logging_stdout_enabled st'
       = negb (log_stdout_disabled (impl global_args))
    /\ g_rcl_logging_rosout_enabled st'
       = negb (log_rosout_disabled (impl global_args))
    /\ g_rcl_logging_ext_lib_enabled st'
       = negb (log_ext_lib_disabled (impl global_args)).
Proof.
  intros Hlen.
  destruct st as [m i al hs num f1 f2 f3 t]. simpl in Hlen.
  destruct hs as [| h0 [| h1 [| h2 [| h3 [| h4 hs]]]]]; try discriminate Hlen.
  destruct global_args as [[lvl cfg d1 d2 d3]].
  unfold sinks_of_configuration, configured_sinks.
  unfold_calls. unfold_calls. simpl.
  destruct (0 <=? lvl), d1, d2, d3, allocator as [a |], i; simpl;
    repeat (case_decide; simpl);
    (eexists; eexists; (split; [reflexivity |]); simpl;
     repeat case_bool_decide; try congruence; simpl;
     repeat split; try reflexivity).
Qed.

Lemma active_prefix_take
    (l : list rcutils_logging_output_handler_t)
    (slots : list (option rcutils_logging_output_handler_t)) :
  take (length l) slots = Some <$> l ->
  active_prefix (length l) slots = l.
Proof.
  revert slots. induction l as [| h l IH]; intros slots Htake; [reflexivity |].
  destruct slots as [| s rest]; [discriminate |].
  simpl in Htake. injection Htake as -> Htake.
  simpl. f_equal. apply IH. assumption.
Qed.

Lemma configured_sinks_length (stdout rosout ext_lib : bool) :
  (length (configured_sinks stdout rosout ext_lib) <= 3)%nat.
Proof.
  destruct stdout, rosout, ext_lib; simpl; lia.
Qed.

(** C5: two calls of [rcl_logging_configure] in a row both return, and
    after the second the counter and the active handler list are those of
    the second configuration alone (its enabled sinks that started, in the
    order console, registry, external), whatever the first one had set
    up; the dispatcher then calls exactly these handlers, in that
    order. *)
Theorem reconfigure_replaces_handlers
    (args1 args2 : rcl_arguments_t) (a1 a2 : option rcl_allocator_t)
    (st : state) :
  length (g_rcl_logging_out_handlers st) = RCL_LOGGING_MAX_OUTPUT_FUNCS ->
  exists s1 st1 s2 st2,
    rcl_logging_configure w args1 a1 st = Some (s1, st1)
    /\ rcl_logging_configure w args2 a2 st1 = Some (s2, st2)
    /\ g_rcl_logging_num_out_handlers st2
       = Z.of_nat (length (sinks_of_configuration args2 a2 s2 st2))
    /\ active_handlers st2 = sinks_of_configuration args2 a2 s2 st2
    /\ forall location severity name timestamp log_str,
         rcl_logging_multiple_output_handler w location severity name
           timestamp log_str st2
         = call_output_handlers w (sinks_of_configuration args2 a2 s2 st2)
             location severity name timestamp log_str st2.
Proof.
  intros Hlen.
  destruct (configure_spec args1 a1 st Hlen) as (s1 & st1 & Hrun1 & Hlen1 & _).
  destruct (configure_spec args2 a2 st1 Hlen1)
    as (s2 & st2 & Hrun2 & _ & Hnum & Htake & _).
  exists s1, st1, s2, st2.
  assert (Hactive : active_handlers st2 = sinks_of_configuration args2 a2 s2 st2).
  { unfold active_handlers. rewrite Hnum, Nat2Z.id.
    apply active_prefix_take. assumption. }
  repeat split; try assumption.
  intros. rewrite multiple_output_handler_spec.
  - rewrite Hactive. reflexivity.
  - rewrite Hnum. unfold sinks_of_configuration.
    pose proof (configured_sinks_length
      (negb (log_stdout_disabled (impl args2)))
      (negb (log_rosout_disabled (impl args2))
       && bool_decide (is_Some a2) && __is_initialized st2)
      (negb (log_ext_lib_disabled (impl args2))
       && bool_decide (s2 = RCL_RET_OK))).
    lia.
Qed.

(** One turn of the teardown loop: it is left at once when the
    enumeration gave no entry; otherwise the publisher of the entry is
    torn down, and either that failed and its status leaves the loop, or
    line 88 is reached and faults.  No second turn is ever taken. *)
Lemma fini_outstanding_publishers_turn
    (turns : nat) (next : found (string * rosout_map_entry_t)) (st : state) :
  fini_outstanding_publishers w (S turns) next st
  = match next with
    | NotFound status => Some (status, st)
    | Found (key, entry) =>
        if decide (RCL_RET_OK
                   = w_publisher_fini w (trace st) (publisher entry) (node entry))
        then None
        else Some (w_publisher_fini w (trace st) (publisher entry) (node entry),
                   set_trace
                     (trace st
                        ++ [EvPublisherFini (publisher entry) (node entry)
                              (w_publisher_fini w (trace st) (publisher entry)
                                 (node entry))])
                     st)
    end.
Proof.
  destruct next as [[key entry] | status]; [| reflexivity].
  unfold fini_outstanding_publishers. unfold_calls. simpl.
  destruct (decide (RCL_RET_OK
                    = w_publisher_fini w (trace st) (publisher entry) (node entry)));
    reflexivity.
Qed.

(** When [rcl_logging_rosout_fini] returns, it has only added calls to
    the trace, none of them to the external library, and left the statics
    of logging.c alone. *)
Lemma rcl_logging_rosout_fini_returns
    (st st' : state) (status : rcl_ret_t) :
  rcl_logging_rosout_fini w st = Some (status, st') ->
  exists evs,
    trace st' = trace st ++ evs
    /\ existsb is_external_shutdown evs = false
    /\ dispatcher st' = dispatcher st.
Proof.
  unfold rcl_logging_rosout_fini, RCL_LOGGING_ROSOUT_VERIFY_INITIALIZED.
  unfold mbind, M_bind, get. simpl.
  destruct (__is_initialized st); simpl;
    [| intros Heq; injection Heq as _ <-; exists [];
       rewrite app_nil_r; repeat split].
  unfold rcutils_hash_map_get_next_key_and_data, emit, modify, get,
    mbind, M_bind, mret, M_ret. simpl.
  rewrite fini_outstanding_publishers_turn. simpl.
  destruct (map_to_list (__logger_map st)) as [| [key entry] rest].
  - simpl. unfold_calls. simpl.
    destruct (decide (RCL_RET_OK = w_hash_map_fini w
                        (trace st ++ [EvHashMapGetNext None]))); simpl;
      intros Heq; injection Heq as _ <-; simpl; eexists;
      (split; [repeat (eapply trace_extends_snoc); apply trace_extends_refl |]);
      split; reflexivity.
  - destruct (decide (RCL_RET_OK = w_publisher_fini w
        (trace st ++ [EvHashMapGetNext None]) (publisher entry) (node entry)))
      as [Hok | Hfail]; [discriminate |].
    simpl.
    destruct (decide (RCUTILS_RET_HASH_MAP_NO_MORE_ENTRIES = w_publisher_fini w
        (trace st ++ [EvHashMapGetNext None]) (publisher entry) (node entry)))
      as [Hend | Hnoend].
    + unfold_calls. simpl.
      destruct (decide (RCL_RET_OK = w_hash_map_fini w _)); simpl;
        intros Heq; injection Heq as _ <-; simpl; eexists;
        (split; [repeat (eapply trace_extends_snoc); apply trace_extends_refl |]);
        split; reflexivity.
    + destruct (decide (RCL_RET_OK = w_publisher_fini w
        (trace st ++ [EvHashMapGetNext None]) (publisher entry) (node entry)))
        as [Hok | _]; [contradiction |].
      simpl.
      destruct (decide (RCL_RET_OK = w_publisher_fini w
        (trace st ++ [EvHashMapGetNext None]) (publisher entry) (node entry)))
        as [Hok | _]; [contradiction |].
      intros Heq; injection Heq as _ <-; simpl; eexists;
      (split; [repeat (eapply trace_extends_snoc); apply trace_extends_refl |]);
      split; reflexivity.
Qed.

(** C2, as amended: with both the registry sink and the external sink
    enabled, and whenever the teardown of the registry returns a status,
    [rcl_logging_fini] (which first reinstalls the console handler)
    returns that status and makes no call to the external library's
    shutdown when it is an error, and calls the external shutdown and
    returns its status when it is [RCL_RET_OK].  The status returned is
    thus the first error met. *)
Theorem fini_stops_at_first_error
    (st st1 : state) (registry_status : rcl_ret_t) :
  g_rcl_logging_rosout_enabled st = true ->
  g_rcl_logging_ext_lib_enabled st = true ->
  rcl_logging_rosout_fini w
    (set_trace (trace st ++ [EvSetOutputHandlerConsole]) st)
    = Some (registry_status, st1) ->
  (registry_status <> RCL_RET_OK ->
   rcl_logging_fini w st = Some (registry_status, st1)
   /\ existsb is_external_shutdown (new_events st st1) = false)
  /\ (registry_status = RCL_RET_OK ->
      rcl_logging_fini w st
      = Some (w_external_shutdown w (trace st1),
              set_trace
                (trace st1
                   ++ [EvExternalShutdown (w_external_shutdown w (trace st1))])
                st1)).
Proof.
  intros Hrosout Hext Hrun.
  destruct (rcl_logging_rosout_fini_returns _ _ _ Hrun)
    as (evs & Htrace & Hevs & Hdisp).
  assert (Hflag : g_rcl_logging_ext_lib_enabled st1 = true).
  { unfold dispatcher in Hdisp. simpl in Hdisp. injection Hdisp as _ _ _ _ ->.
    assumption. }
  simpl in Htrace.
  unfold rcl_logging_fini, emit, modify, get, mbind, M_bind, mret, M_ret.
  simpl. rewrite Hrosout. rewrite Hrun. rewrite Hflag.
  split.
  - intros Hfail.
    rewrite bool_decide_eq_false_2 by congruence. simpl.
    split; [reflexivity |].
    rewrite (new_events_app st st1 ([EvSetOutputHandlerConsole] ++ evs)).
    + simpl. assumption.
    + rewrite Htrace, <- app_assoc. reflexivity.
  - intros ->. rewrite bool_decide_eq_true_2 by reflexivity. simpl.
    reflexivity.
Qed.

End Dispatcher.

Lemma reconfigure_replaces_handlers_witness :
  length (g_rcl_logging_out_handlers initial_state) = RCL_LOGGING_MAX_OUTPUT_FUNCS
  /\ exists s1 st1 s2 st2,
       rcl_logging_configure world_ok all_sinks (Some the_allocator) initial_state
         = Some (s1, st1)
       /\ active_handlers st1
          = [console_output_handler; rosout_output_handler; ext_lib_output_handler]
       /\ rcl_logging_configure world_ok console_only (Some the_allocator) st1
          = Some (s2, st2)
       /\ active_handlers st2 = [console_output_handler].
Proof.
  split; [reflexivity |].
  destruct (reconfigure_replaces_handlers world_ok all_sinks console_only
              (Some the_allocator) (Some the_allocator) initial_state)
    as (s1 & st1 & s2 & st2 & Hrun1 & Hrun2 & _ & Hactive & _);
    [reflexivity |].
  exists s1, st1, s2, st2. split; [exact Hrun1 |].
  split.
  { vm_compute in Hrun1. injection Hrun1 as _ <-. reflexivity. }
  split; [exact Hrun2 |].
  rewrite Hactive. reflexivity.
Defined.

Lemma fini_stops_at_first_error_witness :
  g_rcl_logging_rosout_enabled all_sinks_nav_state = true
  /\ g_rcl_logging_ext_lib_enabled all_sinks_nav_state = true
  /\ rcl_logging_rosout_fini world_publisher_fini_fails
       (set_trace (trace all_sinks_nav_state ++ [EvSetOutputHandlerConsole])
          all_sinks_nav_state)
     = Some (RCL_RET_ERROR,
             state_after (rcl_logging_rosout_fini world_publisher_fini_fails)
               (set_trace
                  (trace all_sinks_nav_state ++ [EvSetOutputHandlerConsole])
                  all_sinks_nav_state))
  /\ (exists st',
        rcl_logging_fini world_publisher_fini_fails all_sinks_nav_state
          = Some (RCL_RET_ERROR, st')
        /\ existsb is_external_shutdown (new_events all_sinks_nav_state st')
           = false)
  /\ g_rcl_logging_rosout_enabled all_sinks_state = true
  /\ g_rcl_logging_ext_lib_enabled all_sinks_state = true
  /\ rcl_logging_rosout_fini world_ok
       (set_trace (trace all_sinks_state ++ [EvSetOutputHandlerConsole])
          all_sinks_state)
     = Some (RCL_RET_OK,
             state_after (rcl_logging_rosout_fini world_ok)
               (set_trace (trace all_sinks_state ++ [EvSetOutputHandlerConsole])
                  all_sinks_state))
  /\ exists st',
       rcl_logging_fini world_ok all_sinks_state = Some (RCL_RET_OK, st')
       /\ last (new_events all_sinks_state st')
          = Some (EvExternalShutdown RCL_RET_OK).
Proof.
  split; [reflexivity |]. split; [reflexivity |].
  split; [vm_compute; reflexivity |]. split.
  { destruct (fini_stops_at_first_error world_publisher_fini_fails
                all_sinks_nav_state
                (state_after (rcl_logging_rosout_fini world_publisher_fini_fails)
                   (set_trace
                      (trace all_sinks_nav_state ++ [EvSetOutputHandlerConsole])
                      all_sinks_nav_state))
                RCL_RET_ERROR)
      as (Hfail & _);
      [reflexivity | reflexivity | vm_compute; reflexivity |].
    destruct Hfail as (Hfini & Hnone); [discriminate |].
    eexists. split; [exact Hfini | exact Hnone]. }
  split; [reflexivity |]. split; [reflexivity |].
  split; [vm_compute; reflexivity |].
  destruct (fini_stops_at_first_error world_ok all_sinks_state
              (state_after (rcl_logging_rosout_fini world_ok)
                 (set_trace
                    (trace all_sinks_state ++ [EvSetOutputHandlerConsole])
                    all_sinks_state))
              RCL_RET_OK)
    as (_ & Hok); [reflexivity | reflexivity | vm_compute; reflexivity |].
  eexists. split; [exact (Hok eq_refl) |].
  vm_compute. reflexivity.
Defined.

(** C2, as the design document states it, fails: with both sinks enabled
    and the teardown of the one registered publisher failing,
    [rcl_logging_fini] returns without having called the external
    library's shutdown. *)
Lemma external_shutdown_skipped_after_registry_failure :
  g_rcl_logging_rosout_enabled all_sinks_nav_state = true
  /\ g_rcl_logging_ext_lib_enabled all_sinks_nav_state = true
  /\ ~ shutdown_attempts_both world_publisher_fini_fails all_sinks_nav_state.
Proof.
  split; [reflexivity |]. split; [reflexivity |].
  intros (status & st' & registry_status & external_status & Hrun & Hin & _).
  vm_compute in Hrun. injection Hrun as _ <-.
  vm_compute in Hin.
  repeat (destruct Hin as [Hin | Hin]; [discriminate Hin |]).
  exact Hin.
Qed.

(** C4: with the three sinks enabled, a registry whose hash map cannot be
    created and an external library that starts,
    [rcl_logging_configure] returns [RCL_RET_OK]: the status of the failed
    registry initialisation is overwritten by that of the external
    initialisation.  The registry sink is left out and the console and
    external sinks are active, in that order. *)
Theorem configure_loses_registry_failure :
  exists st',
    rcl_logging_configure world_no_map_memory all_sinks (Some the_allocator)
      initial_state = Some (RCL_RET_OK, st')
    /\ In (EvHashMapInit RCL_RET_BAD_ALLOC) (new_events initial_state st')
    /\ __is_initialized st' = false
    /\ active_handlers st' = [console_output_handler; ext_lib_output_handler].
Proof.
  eexists. split; [vm_compute; reflexivity |].
  split; [vm_compute; auto |].
  split; reflexivity.
Qed.

(** ** Life cycle of the registry *)

Section RegistryLifecycle.

Variable w : World.

(** X1: initialising the registry twice creates the hash map once: the
    first call on an uninitialised registry whose map creation succeeds
    returns [RCL_RET_OK], leaves an empty map and records its allocator;
    a second call, with any allocator, returns [RCL_RET_OK] and changes
    nothing, so the allocator recorded is still the first one. *)
Theorem init_twice_allocates_once
    (st : state) (a a' : rcl_allocator_t) :
  __is_initialized st = false ->
  w_hash_map_init w (trace st) = RCL_RET_OK ->
  exists st1,
    rcl_logging_rosout_init w (Some a) st = Some (RCL_RET_OK, st1)
    /\ new_events st st1 = [EvHashMapInit RCL_RET_OK]
    /\ registry st1 = (∅, true, Some a)
    /\ rcl_logging_rosout_init w (Some a') st1 = Some (RCL_RET_OK, st1).
Proof.
  intros Hinit Hmap.
  eexists. split.
  { unfold_calls. rewrite Hinit. simpl. rewrite Hmap. simpl. reflexivity. }
  split; [apply new_events_app; reflexivity |].
  split; reflexivity.
Qed.

(** X2: [rcl_logging_rosout_init_publisher_for_node] always returns; it
    never changes the initialised flag, the allocator or the statics of
    the dispatcher; when it returns anything but [RCL_RET_OK] the map is
    as before; and a key whose entry differs afterwards is the logger name
    of the node passed, on a call that returned [RCL_RET_OK]. *)
Theorem registration_changes_only_own_key
    (st : state) (node_ptr : option rcl_node_t) :
  exists status st',
    rcl_logging_rosout_init_publisher_for_node w node_ptr st = Some (status, st')
    /\ __is_initialized st' = __is_initialized st
    /\ __rosout_allocator st' = __rosout_allocator st
    /\ dispatcher st' = dispatcher st
    /\ (status <> RCL_RET_OK -> __logger_map st' = __logger_map st)
    /\ forall key,
         __logger_map st' !! key <> __logger_map st !! key ->
         status = RCL_RET_OK
         /\ exists n, node_ptr = Some n /\ rcl_node_get_logger_name n = Some key.
Proof.
  unfold_calls.
  destruct (__is_initialized st) eqn:Hinit; simpl;
    [| eexists; eexists; split; [reflexivity |]; rewrite Hinit;
       repeat split; try reflexivity; intros; contradiction].
  destruct node_ptr as [n |]; simpl;
    [| eexists; eexists; split; [reflexivity |]; simpl; rewrite Hinit;
       repeat split; try reflexivity; intros; contradiction].
  destruct (rcl_node_get_logger_name n) as [logger_name |] eqn:Hname; simpl;
    [| eexists; eexists; split; [reflexivity |]; simpl; rewrite Hinit;
       repeat split; try reflexivity; intros; contradiction].
  destruct (__logger_map st !! logger_name) as [old |] eqn:Hold; simpl;
    [eexists; eexists; split; [reflexivity |]; simpl; rewrite Hinit;
     repeat split; try reflexivity; intros; contradiction |].
  destruct (w_publisher_init w (trace st ++ [EvHashMapKeyExists logger_name]) n)
    as [pub s] eqn:Hpub; simpl.
  destruct (decide (RCL_RET_OK = s)) as [<- | Hs]; simpl;
    [| eexists; eexists; split; [reflexivity |]; simpl; rewrite Hinit;
       repeat split; try reflexivity; intros; contradiction].
  destruct (decide (RCL_RET_OK = w_hash_map_set w
      ((trace st ++ [EvHashMapKeyExists logger_name])
         ++ [EvPublisherInit n ROSOUT_TOPIC_NAME pub RCL_RET_OK])))
    as [Hset | Hset]; simpl.
  - rewrite <- Hset. simpl.
    eexists; eexists; split; [reflexivity |]; simpl; rewrite Hinit.
    split; [reflexivity |]. split; [reflexivity |]. split; [reflexivity |].
    split; [intros; contradiction |].
    intros key Hkey. split; [reflexivity |].
    exists n. split; [reflexivity |].
    destruct (decide (logger_name = key)) as [-> | Hne]; [assumption |].
    rewrite lookup_insert_ne in Hkey by assumption. contradiction.
  - destruct (decide (RCL_RET_OK = w_hash_map_set w
      ((trace st ++ [EvHashMapKeyExists logger_name])
         ++ [EvPublisherInit n ROSOUT_TOPIC_NAME pub RCL_RET_OK])))
      as [Hyes | _]; [contradiction |].
    eexists; eexists; split; [reflexivity |]; simpl; rewrite Hinit.
    repeat split; try reflexivity; intros; contradiction.
Qed.


(** X3: on an initialised registry both per-node functions return
    [RCL_RET_INVALID_ARGUMENT] for a null node and [RCL_RET_ERROR] for a
    node without a logger name, leave the registry as it was and call
    neither the hash map nor a publisher (at most the error message is
    set). *)
Theorem per_node_calls_reject_invalid_nodes (st : state) :
  __is_initialized st = true ->
  (exists st1,
     rcl_logging_rosout_init_publisher_for_node w None st
       = Some (RCL_RET_INVALID_ARGUMENT, st1)
     /\ registry st1 = registry st
     /\ forallb is_set_error_msg (new_events st st1) = true)
  /\ (exists st2,
        rcl_logging_rosout_fini_publisher_for_node w None st
          = Some (RCL_RET_INVALID_ARGUMENT, st2)
        /\ registry st2 = registry st
        /\ forallb is_set_error_msg (new_events st st2) = true)
  /\ forall n,
       rcl_node_get_logger_name n = None ->
       (exists st3,
          rcl_logging_rosout_init_publisher_for_node w (Some n) st
            = Some (RCL_RET_ERROR, st3)
          /\ registry st3 = registry st
          /\ forallb is_set_error_msg (new_events st st3) = true)
       /\ rcl_logging_rosout_fini_publisher_for_node w (Some n) st
          = Some (RCL_RET_ERROR, st).
Proof.
  intros Hinit. split; [| split].
  - eexists. split.
    { unfold_calls. rewrite Hinit. simpl. reflexivity. }
    split; [reflexivity |].
    rewrite (new_events_app _ _ [EvSetErrorMsg "node argument is null"]);
      reflexivity.
  - eexists. split.
    { unfold_calls. rewrite Hinit. simpl. reflexivity. }
    split; [reflexivity |].
    rewrite (new_events_app _ _ [EvSetErrorMsg "node argument is null"]);
      reflexivity.
  - intros n Hname. split.
    + eexists. split.
      { unfold_calls. rewrite Hinit, Hname. simpl. reflexivity. }
      split; [reflexivity |].
      rewrite (new_events_app _ _ [EvSetErrorMsg "Logger name was null."]);
        reflexivity.
    + unfold_calls. rewrite Hinit, Hname. simpl. reflexivity.
Qed.

(** What a successful registration on an initialised registry went
    through, calls included. *)
Lemma registration_succeeded_calls
    (st st1 : state) (node_ptr : option rcl_node_t) :
  __is_initialized st = true ->
  rcl_logging_rosout_init_publisher_for_node w node_ptr st
    = Some (RCL_RET_OK, st1) ->
  exists n logger_name pub,
    node_ptr = Some n
    /\ rcl_node_get_logger_name n = Some logger_name
    /\ __logger_map st !! logger_name = None
    /\ __is_initialized st1 = true
    /\ __logger_map st1
       = <[logger_name := {| node := n; publisher := pub |}]> (__logger_map st)
    /\ new_events st st1
       = [EvHashMapKeyExists logger_name;
          EvPublisherInit n ROSOUT_TOPIC_NAME pub RCL_RET_OK;
          EvHashMapSet logger_name {| node := n; publisher := pub |} RCL_RET_OK].
Proof.
  intros Hinit Hrun.
  unfold_calls in Hrun. rewrite Hinit in Hrun. simpl in Hrun.
  destruct node_ptr as [n |]; [| discriminate].
  destruct (rcl_node_get_logger_name n) as [logger_name |] eqn:Hname;
    [| discriminate].
  simpl in Hrun.
  destruct (__logger_map st !! logger_name) as [old |] eqn:Hold;
    simpl in Hrun; [discriminate |].
  destruct (w_publisher_init w _ n) as [pub s] eqn:Hpub. simpl in Hrun.
  destruct (decide (RCL_RET_OK = s)) as [<- | Hs]; simpl in Hrun.
  - destruct (w_hash_map_set w _) as [] eqn:Hset; simpl in Hrun;
      try discriminate.
    injection Hrun as Hst. subst st1. exists n, logger_name, pub.
    repeat split; try assumption.
    apply new_events_app. simpl. rewrite <- !app_assoc. reflexivity.
  - injection Hrun as Heq _. congruence.
Qed.

(** What a successful unregistration on an initialised registry went
    through. *)
Lemma unregistration_succeeded
    (st st' : state) (node_ptr : option rcl_node_t) :
  __is_initialized st = true ->
  rcl_logging_rosout_fini_publisher_for_node w node_ptr st
    = Some (RCL_RET_OK, st') ->
  exists n logger_name entry,
    node_ptr = Some n
    /\ rcl_node_get_logger_name n = Some logger_name
    /\ __logger_map st !! logger_name = Some entry
    /\ __is_initialized st' = true
    /\ __logger_map st' = delete logger_name (__logger_map st)
    /\ publisher_finis (new_events st st')
       = [(publisher entry, node entry, RCL_RET_OK)].
Proof.
  intros Hinit Hrun.
  unfold_calls in Hrun. rewrite Hinit in Hrun. simpl in Hrun.
  destruct node_ptr as [n |]; [| discriminate].
  destruct (rcl_node_get_logger_name n) as [logger_name |] eqn:Hname;
    [| discriminate].
  simpl in Hrun.
  destruct (__logger_map st !! logger_name) as [entry |] eqn:Hentry;
    simpl in Hrun; [| discriminate].
  rewrite Hentry in Hrun. simpl in Hrun.
  destruct (decide (RCL_RET_OK = w_publisher_fini w
      ((trace st ++ [EvHashMapKeyExists logger_name])
         ++ [EvHashMapGet logger_name]) (publisher entry) (node entry)))
    as [Hfini | Hfini]; simpl in Hrun.
  - destruct (decide (RCL_RET_OK = w_hash_map_unset w
      (((trace st ++ [EvHashMapKeyExists logger_name])
          ++ [EvHashMapGet logger_name])
         ++ [EvPublisherFini (publisher entry) (node entry)
               (w_publisher_fini w
                  ((trace st ++ [EvHashMapKeyExists logger_name])
                     ++ [EvHashMapGet logger_name])
                  (publisher entry) (node entry))])))
      as [Hun | Hun]; simpl in Hrun.
    + injection Hrun as _ Hst. subst st'.
      exists n, logger_name, entry. simpl.
      repeat split; try assumption.
      rewrite (new_events_app _ _
        [EvHashMapKeyExists logger_name; EvHashMapGet logger_name;
         EvPublisherFini (publisher entry) (node entry)
           (w_publisher_fini w
              ((trace st ++ [EvHashMapKeyExists logger_name])
                 ++ [EvHashMapGet logger_name])
              (publisher entry) (node entry));
         EvHashMapUnset logger_name
           (w_hash_map_unset w
              (((trace st ++ [EvHashMapKeyExists logger_name])
                  ++ [EvHashMapGet logger_name])
                 ++ [EvPublisherFini (publisher entry) (node entry)
                       (w_publisher_fini w
                          ((trace st ++ [EvHashMapKeyExists logger_name])
                             ++ [EvHashMapGet logger_name])
                          (publisher entry) (node entry))]))]).
      * simpl. rewrite <- Hfini. reflexivity.
      * simpl. rewrite <- !app_assoc. reflexivity.
    + injection Hrun as Hs _. congruence.
  - injection Hrun as Hs _. congruence.
Qed.

(** X4: on an initialised registry, a registration that returned
    [RCL_RET_OK] followed by an unregistration of the same node that
    returned [RCL_RET_OK] gives back the map of before, and the one
    publisher torn down is the one the registration created. *)
Theorem register_then_unregister_restores_registry
    (st st1 st2 : state) (node_ptr : option rcl_node_t) :
  __is_initialized st = true ->
  rcl_logging_rosout_init_publisher_for_node w node_ptr st
    = Some (RCL_RET_OK, st1) ->
  rcl_logging_rosout_fini_publisher_for_node w node_ptr st1
    = Some (RCL_RET_OK, st2) ->
  __logger_map st2 = __logger_map st
  /\ __is_initialized st2 = true
  /\ exists n pub,
       node_ptr = Some n
       /\ In (EvPublisherInit n ROSOUT_TOPIC_NAME pub RCL_RET_OK)
            (new_events st st1)
       /\ publisher_finis (new_events st1 st2) = [(pub, n, RCL_RET_OK)].
Proof.
  intros Hinit Hreg Hunreg.
  destruct (registration_succeeded_calls st st1 node_ptr Hinit Hreg)
    as (n & logger_name & pub & -> & Hname & Hfree & Hinit1 & Hmap1 & Hnew).
  destruct (unregistration_succeeded st1 st2 (Some n) Hinit1 Hunreg)
    as (n' & logger_name' & entry & Hn & Hname' & Hentry & Hinit2 & Hmap2 & Hfinis).
  injection Hn as <-. rewrite Hname in Hname'. injection Hname' as <-.
  rewrite Hmap1, lookup_insert_eq in Hentry. injection Hentry as <-.
  split.
  { rewrite Hmap2, Hmap1, delete_insert_eq. apply delete_id. assumption. }
  split; [assumption |].
  exists n, pub. split; [reflexivity |]. split; [| assumption].
  rewrite Hnew. simpl. auto.
Qed.

(** X5: [rcl_logging_rosout_fini_publisher_for_node] always returns; it
    never changes the initialised flag, the allocator or the statics of
    the dispatcher; when it returns anything but [RCL_RET_OK] the map is
    as before; and a key whose entry differs afterwards is the logger name
    of the node passed, now absent, on a call that returned
    [RCL_RET_OK]. *)
Theorem unregistration_changes_only_own_key
    (st : state) (node_ptr : option rcl_node_t) :
  exists status st',
    rcl_logging_rosout_fini_publisher_for_node w node_ptr st = Some (status, st')
    /\ __is_initialized st' = __is_initialized st
    /\ __rosout_allocator st' = __rosout_allocator st
    /\ dispatcher st' = dispatcher st
    /\ (status <> RCL_RET_OK -> __logger_map st' = __logger_map st)
    /\ forall key,
         __logger_map st' !! key <> __logger_map st !! key ->
         status = RCL_RET_OK
         /\ __logger_map st' !! key = None
         /\ exists n, node_ptr = Some n /\ rcl_node_get_logger_name n = Some key.
Proof.
  unfold_calls.
  destruct (__is_initialized st) eqn:Hinit; simpl;
    [| eexists; eexists; split; [reflexivity |]; rewrite Hinit;
       repeat split; try reflexivity; intros; contradiction].
  destruct node_ptr as [n |]; simpl;
    [| eexists; eexists; split; [reflexivity |]; simpl; rewrite Hinit;
       repeat split; try reflexivity; intros; contradiction].
  destruct (rcl_node_get_logger_name n) as [logger_name |] eqn:Hname; simpl;
    [| eexists; eexists; split; [reflexivity |]; simpl; rewrite Hinit;
       repeat split; try reflexivity; intros; contradiction].
  destruct (__logger_map st !! logger_name) as [entry |] eqn:Hentry; simpl;
    [| eexists; eexists; split; [reflexivity |]; simpl; rewrite Hinit;
       repeat split; try reflexivity; intros; contradiction].
  rewrite Hentry. simpl.
  destruct (decide (RCL_RET_OK = w_publisher_fini w
      ((trace st ++ [EvHashMapKeyExists logger_name])
         ++ [EvHashMapGet logger_name]) (publisher entry) (node entry)))
    as [Hfini | Hfini]; simpl;
    [| eexists; eexists; split; [reflexivity |]; simpl; rewrite Hinit;
       repeat split; try reflexivity; intros; contradiction].
  destruct (decide (RCL_RET_OK = w_hash_map_unset w
      (((trace st ++ [EvHashMapKeyExists logger_name])
          ++ [EvHashMapGet logger_name])
         ++ [EvPublisherFini (publisher entry) (node entry)
               (w_publisher_fini w
                  ((trace st ++ [EvHashMapKeyExists logger_name])
                     ++ [EvHashMapGet logger_name])
                  (publisher entry) (node entry))])))
    as [Hun | Hun]; simpl;
    [| eexists; eexists; split; [reflexivity |]; simpl; rewrite Hinit;
       repeat split; try reflexivity; intros; contradiction].
  eexists; eexists; split; [reflexivity |]; simpl; rewrite Hinit.
  split; [reflexivity |]. split; [reflexivity |]. split; [reflexivity |].
  split; [intros Hne; congruence |].
  intros key Hkey.
  destruct (decide (logger_name = key)) as [-> | Hne].
  - split; [congruence |]. split; [apply lookup_delete_eq |].
    exists n. split; [reflexivity | assumption].
  - rewrite lookup_delete_ne in Hkey by assumption. contradiction.
Qed.

(** X6: after a registration that returned [RCL_RET_OK] on an
    initialised registry, a record with a location logged under the
    node's logger name is published once, on the publisher that
    registration created on topic rosout, when the Log message can be
    created. *)
Theorem register_then_log_publishes_on_new_publisher
    (st st1 : state) (node_ptr : option rcl_node_t) :
  __is_initialized st = true ->
  rcl_logging_rosout_init_publisher_for_node w node_ptr st
    = Some (RCL_RET_OK, st1) ->
  exists n logger_name pub,
    node_ptr = Some n
    /\ rcl_node_get_logger_name n = Some logger_name
    /\ In (EvPublisherInit n ROSOUT_TOPIC_NAME pub RCL_RET_OK) (new_events st st1)
    /\ forall location severity timestamp log_str,
         w_Log__create w (trace st1 ++ [EvHashMapGet logger_name]) = true ->
         exists st2,
           rcl_logging_rosout_output_handler w (Some location) severity
             logger_name timestamp log_str st1 = Some (tt, st2)
           /\ publishes (new_events st1 st2)
              = [(pub, log_message_of location severity logger_name timestamp
                         log_str)].
Proof.
  intros Hinit Hreg.
  destruct (registration_succeeded_calls st st1 node_ptr Hinit Hreg)
    as (n & logger_name & pub & -> & Hname & Hfree & Hinit1 & Hmap1 & Hnew).
  exists n, logger_name, pub.
  split; [reflexivity |]. split; [assumption |].
  split; [rewrite Hnew; simpl; auto |].
  intros location severity timestamp log_str Hcreate.
  eexists. split.
  { unfold_calls. rewrite Hinit1. simpl. rewrite Hmap1, lookup_insert_eq.
    simpl. rewrite Hcreate. simpl. reflexivity. }
  rewrite (new_events_app _ _
    [EvHashMapGet logger_name; EvLogCreate true;
     EvPublish pub
       (log_message_of location severity logger_name timestamp log_str)
       (w_publish w ((trace st1 ++ [EvHashMapGet logger_name])
                       ++ [EvLogCreate true]) pub
          (log_message_of location severity logger_name timestamp log_str));
     EvLogDestroy
       (log_message_of location severity logger_name timestamp log_str)]).
  - reflexivity.
  - simpl. rewrite <- !app_assoc. reflexivity.
Qed.

(** X7: after an unregistration that returned [RCL_RET_OK] on an
    initialised registry, a record logged under the node's logger name
    only makes the handler look the name up: nothing is created or
    published, with or without a location. *)
Theorem unregister_then_log_publishes_nothing
    (st st1 : state) (node_ptr : option rcl_node_t) :
  __is_initialized st = true ->
  rcl_logging_rosout_fini_publisher_for_node w node_ptr st
    = Some (RCL_RET_OK, st1) ->
  exists n logger_name,
    node_ptr = Some n
    /\ rcl_node_get_logger_name n = Some logger_name
    /\ forall location severity timestamp log_str,
         exists st2,
           rcl_logging_rosout_output_handler w location severity logger_name
             timestamp log_str st1 = Some (tt, st2)
           /\ new_events st1 st2 = [EvHashMapGet logger_name].
Proof.
  intros Hinit Hunreg.
  destruct (unregistration_succeeded st st1 node_ptr Hinit Hunreg)
    as (n & logger_name & entry & -> & Hname & Hentry & Hinit1 & Hmap1 & _).
  exists n, logger_name. split; [reflexivity |]. split; [assumption |].
  intros location severity timestamp log_str.
  eexists. split.
  { unfold_calls. rewrite Hinit1. simpl. rewrite Hmap1, lookup_delete_eq.
    simpl. reflexivity. }
  apply new_events_app. reflexivity.
Qed.

(** X8: on an initialised registry, a record whose logger name has no
    entry is dropped: the handler returns after the lookup, with or
    without a location, and the registry is as before. *)
Theorem handler_drops_record_of_unknown_logger
    (st : state) (location : option rcutils_log_location_t) (severity : Z)
    (name : string) (timestamp : Z) (log_str : string) :
  __is_initialized st = true ->
  __logger_map st !! name = None ->
  exists st',
    rcl_logging_rosout_output_handler w location severity name timestamp
      log_str st = Some (tt, st')
    /\ new_events st st' = [EvHashMapGet name]
    /\ registry st' = registry st.
Proof.
  intros Hinit Hnone. eexists. split.
  { unfold_calls. rewrite Hinit. simpl. rewrite Hnone. simpl. reflexivity. }
  split; [apply new_events_app; reflexivity | reflexivity].
Qed.

(** X9: when the logger name has an entry but no Log message can be
    created, the handler returns after the lookup and the failed
    creation: no publish, no destroy, and no read through the location,
    so a null location does no harm there. *)
Theorem handler_without_message_publishes_nothing
    (st : state) (location : option rcutils_log_location_t) (severity : Z)
    (name : string) (timestamp : Z) (log_str : string)
    (entry : rosout_map_entry_t) :
  __is_initialized st = true ->
  __logger_map st !! name = Some entry ->
  w_Log__create w (trace st ++ [EvHashMapGet name]) = false ->
  exists st',
    rcl_logging_rosout_output_handler w location severity name timestamp
      log_str st = Some (tt, st')
    /\ new_events st st' = [EvHashMapGet name; EvLogCreate false]
    /\ registry st' = registry st.
Proof.
  intros Hinit Hentry Hcreate. eexists. split.
  { unfold_calls. rewrite Hinit. simpl. rewrite Hentry. simpl.
    rewrite Hcreate. simpl. reflexivity. }
  split; [| reflexivity].
  apply new_events_app. simpl. rewrite <- app_assoc. reflexivity.
Qed.

(** X10: [rcl_logging_rosout_output_handler] faults in exactly one
    situation: the registry is initialised, the logger name has an entry,
    the Log message was created, and the location is null. *)
Theorem handler_faults_exactly_on_null_location
    (st : state) (location : option rcutils_log_location_t) (severity : Z)
    (name : string) (timestamp : Z) (log_str : string) :
  rcl_logging_rosout_output_handler w location severity name timestamp
    log_str st = None
  <-> (__is_initialized st = true
       /\ is_Some (__logger_map st !! name)
       /\ w_Log__create w (trace st ++ [EvHashMapGet name]) = true
       /\ location = None).
Proof.
  unfold_calls.
  destruct (__is_initialized st); simpl;
    [| split; [discriminate | intros (H & _); discriminate]].
  destruct (__logger_map st !! name) as [entry |]; simpl;
    [| split; [discriminate | intros (_ & [e He] & _); discriminate]].
  destruct (w_Log__create w (trace st ++ [EvHashMapGet name])); simpl;
    [| split; [discriminate | intros (_ & _ & H & _); discriminate]].
  destruct location as [loc |]; simpl.
  - split; [discriminate | intros (_ & _ & _ & H); discriminate].
  - split; [| reflexivity]. intros _. repeat split. eexists. reflexivity.
Qed.

(** Everything [rcl_logging_rosout_fini] does on an initialised registry:
    it faults at line 88 when the first teardown succeeded, and otherwise
    returns. *)
Lemma rcl_logging_rosout_fini_outcome (st : state) :
  __is_initialized st = true ->
  (rcl_logging_rosout_fini w st = None
   /\ exists key entry,
        head (map_to_list (__logger_map st)) = Some (key, entry)
        /\ w_publisher_fini w (trace st ++ [EvHashMapGetNext None])
             (publisher entry) (node entry) = RCL_RET_OK)
  \/ (exists status st' evs,
        rcl_logging_rosout_fini w st = Some (status, st')
        /\ trace st' = trace st ++ evs
        /\ dispatcher st' = dispatcher st
        /\ __rosout_allocator st' = __rosout_allocator st
        /\ head evs = Some (EvHashMapGetNext None)
        /\ (status = RCL_RET_OK ->
            __is_initialized st' = false
            /\ __logger_map st' = ∅
            /\ last evs = Some (EvHashMapFini RCL_RET_OK)
            /\ hash_map_finis evs = [RCL_RET_OK])
        /\ (status <> RCL_RET_OK ->
            __is_initialized st' = true
            /\ __logger_map st' = __logger_map st
            /\ ((exists pub n, last evs = Some (EvPublisherFini pub n status))
                /\ hash_map_finis evs = []
                \/ last evs = Some (EvHashMapFini status)))
        /\ (map_to_list (__logger_map st) = [] -> publisher_finis evs = [])
        /\ (forall key entry,
              head (map_to_list (__logger_map st)) = Some (key, entry) ->
              w_publisher_fini w (trace st ++ [EvHashMapGetNext None])
                (publisher entry) (node entry) <> RCL_RET_OK
              /\ publisher_finis evs
                 = [(publisher entry, node entry,
                     w_publisher_fini w (trace st ++ [EvHashMapGetNext None])
                       (publisher entry) (node entry))]
              /\ (w_publisher_fini w (trace st ++ [EvHashMapGetNext None])
                    (publisher entry) (node entry)
                  <> RCUTILS_RET_HASH_MAP_NO_MORE_ENTRIES ->
                  status
                  = w_publisher_fini w (trace st ++ [EvHashMapGetNext None])
                      (publisher entry) (node entry)))).
Proof.
  intros Hinit.
  unfold rcl_logging_rosout_fini, RCL_LOGGING_ROSOUT_VERIFY_INITIALIZED.
  unfold mbind, M_bind, get. simpl. rewrite Hinit. simpl.
  unfold rcutils_hash_map_get_next_key_and_data, emit, modify, get,
    mbind, M_bind, mret, M_ret. simpl.
  rewrite fini_outstanding_publishers_turn. simpl.
  destruct (map_to_list (__logger_map st)) as [| [key entry] rest] eqn:Hlist.
  - right. simpl. unfold_calls. simpl.
    destruct (decide (RCL_RET_OK = w_hash_map_fini w
                        (trace st ++ [EvHashMapGetNext None]))) as [Hh | Hh];
      simpl; eexists; eexists; eexists; (split; [reflexivity |]); simpl;
      (split; [repeat (eapply trace_extends_snoc); apply trace_extends_refl |]);
      simpl; rewrite <- ?Hh; rewrite ?Hinit;
      (split; [reflexivity |]); (split; [reflexivity |]);
      (split; [reflexivity |]).
    + split; [intros _; repeat split; reflexivity |].
      split; [intros Hbad; congruence |].
      split; [reflexivity |]. intros key' entry' Heq. discriminate.
    + split; [intros Hbad; congruence |].
      split; [intros _; split; [reflexivity |]; split; [reflexivity |];
              right; reflexivity |].
      split; [reflexivity |]. intros key' entry' Heq. discriminate.
  - destruct (decide (RCL_RET_OK = w_publisher_fini w
        (trace st ++ [EvHashMapGetNext None]) (publisher entry) (node entry)))
      as [Hok | Hfail].
    { left. split; [reflexivity |]. exists key, entry. split; [reflexivity |].
      congruence. }
    right. simpl.
    destruct (decide (RCUTILS_RET_HASH_MAP_NO_MORE_ENTRIES = w_publisher_fini w
        (trace st ++ [EvHashMapGetNext None]) (publisher entry) (node entry)))
      as [Hend | Hnoend].
    + unfold_calls. simpl.
      destruct (decide (RCL_RET_OK = w_hash_map_fini w
        ((trace st ++ [EvHashMapGetNext None])
           ++ [EvPublisherFini (publisher entry) (node entry)
                 (w_publisher_fini w (trace st ++ [EvHashMapGetNext None])
                    (publisher entry) (node entry))]))) as [Hh | Hh];
        simpl; eexists; eexists; eexists; (split; [reflexivity |]); simpl;
        (split; [repeat (eapply trace_extends_snoc); apply trace_extends_refl |]);
        simpl; rewrite <- ?Hh; rewrite ?Hinit;
        (split; [reflexivity |]); (split; [reflexivity |]);
        (split; [reflexivity |]).
      * split; [intros _; repeat split; reflexivity |].
        split; [intros Hbad; congruence |].
        split; [discriminate |].
        intros key' entry' Heq. injection Heq as <- <-.
        split; [congruence |]. split; [reflexivity |].
        intros Hne. congruence.
      * split; [intros Hbad; congruence |].
        split; [intros _; split; [reflexivity |]; split; [reflexivity |];
                right; reflexivity |].
        split; [discriminate |].
        intros key' entry' Heq. injection Heq as <- <-.
        split; [congruence |]. split; [reflexivity |].
        intros Hne. congruence.
    + destruct (decide (RCL_RET_OK = w_publisher_fini w
        (trace st ++ [EvHashMapGetNext None]) (publisher entry) (node entry)))
        as [Hok | _]; [contradiction |].
      simpl.
      destruct (decide (RCL_RET_OK = w_publisher_fini w
        (trace st ++ [EvHashMapGetNext None]) (publisher entry) (node entry)))
        as [Hok | _]; [contradiction |].
      eexists; eexists; eexists; (split; [reflexivity |]); simpl;
        (split; [repeat (eapply trace_extends_snoc); apply trace_extends_refl |]);
        simpl; rewrite ?Hinit;
        (split; [reflexivity |]); (split; [reflexivity |]);
        (split; [reflexivity |]).
      split; [intros Hbad; congruence |].
      split; [intros _; split; [reflexivity |]; split; [reflexivity |];
              left; split; [eexists; eexists; reflexivity | reflexivity] |].
      split; [discriminate |].
      intros key' entry' Heq. injection Heq as <- <-.
      split; [congruence |]. split; [reflexivity |]. intros _. reflexivity.
Qed.

(** X11: when [rcl_logging_rosout_fini] returns on an initialised
    registry, it has left the statics of the dispatcher alone; if the
    status is [RCL_RET_OK] the map is empty and the flag false (the
    allocator stays); if it is anything else the registry, flag and
    entries included, is as before. *)
Theorem rosout_fini_is_all_or_nothing
    (st st' : state) (status : rcl_ret_t) :
  __is_initialized st = true ->
  rcl_logging_rosout_fini w st = Some (status, st') ->
  dispatcher st' = dispatcher st
  /\ (status = RCL_RET_OK ->
      registry st' = (∅, false, __rosout_allocator st))
  /\ (status <> RCL_RET_OK -> registry st' = registry st).
Proof.
  intros Hinit Hrun.
  destruct (rcl_logging_rosout_fini_outcome st Hinit)
    as [(Hfault & _)
       | (status1 & st1 & evs & Hrun1 & _ & Hdisp & Halloc & _ & Hok & Hfail & _)];
    [congruence |].
  rewrite Hrun in Hrun1. injection Hrun1 as <- <-.
  split; [assumption |].
  unfold registry. split.
  - intros Hs. destruct (Hok Hs) as (Hi & Hm & _). rewrite Hi, Hm, Halloc.
    reflexivity.
  - intros Hs. destruct (Hfail Hs) as (Hi & Hm & _).
    rewrite Hi, Hm, Halloc, Hinit. reflexivity.
Qed.

(** X12: when no publisher teardown returns the value
    [RCUTILS_RET_HASH_MAP_NO_MORE_ENTRIES], [rcl_logging_rosout_fini]
    returns [RCL_RET_OK] on an initialised registry only if the registry
    held no entry: no publisher was torn down, and the finalisation of the
    hash map was its last call. *)
Theorem rosout_fini_succeeds_only_on_empty_registry (st st' : state) :
  (forall t pub n,
     w_publisher_fini w t pub n <> RCUTILS_RET_HASH_MAP_NO_MORE_ENTRIES) ->
  __is_initialized st = true ->
  rcl_logging_rosout_fini w st = Some (RCL_RET_OK, st') ->
  __logger_map st = ∅
  /\ publisher_finis (new_events st st') = []
  /\ hash_map_finis (new_events st st') = [RCL_RET_OK]
  /\ last (new_events st st') = Some (EvHashMapFini RCL_RET_OK).
Proof.
  intros Hw Hinit Hrun.
  destruct (rcl_logging_rosout_fini_outcome st Hinit)
    as [(Hfault & _)
       | (status1 & st1 & evs & Hrun1 & Htrace & _ & _ & _ & Hok & _ & Hempty
          & Hfirst)];
    [congruence |].
  rewrite Hrun in Hrun1. injection Hrun1 as <- <-.
  rewrite (new_events_app _ _ _ Htrace).
  destruct (Hok eq_refl) as (_ & _ & Hlast & Hfinis).
  destruct (map_to_list (__logger_map st)) as [| [key entry] rest] eqn:Hlist.
  - split; [apply map_to_list_empty_iff; assumption |].
    split; [apply Hempty; reflexivity |]. split; assumption.
  - destruct (Hfirst key entry eq_refl) as (Hne & _ & Hstatus).
    specialize (Hstatus (Hw _ _ _)). congruence.
Qed.

(** X13: when [rcl_logging_rosout_fini] returns a status other than
    [RCL_RET_OK] on an initialised registry, that status is the one of the
    last call it made: either a publisher teardown, and then the hash map
    was not finalised, or the finalisation of the hash map. *)
Theorem rosout_fini_reports_the_call_that_failed (st st' : state)
    (status : rcl_ret_t) :
  __is_initialized st = true ->
  rcl_logging_rosout_fini w st = Some (status, st') ->
  status <> RCL_RET_OK ->
  (exists pub n,
     last (new_events st st') = Some (EvPublisherFini pub n status))
  /\ hash_map_finis (new_events st st') = []
  \/ last (new_events st st') = Some (EvHashMapFini status).
Proof.
  intros Hinit Hrun Hs.
  destruct (rcl_logging_rosout_fini_outcome st Hinit)
    as [(Hfault & _)
       | (status1 & st1 & evs & Hrun1 & Htrace & _ & _ & _ & _ & Hfail & _)];
    [congruence |].
  rewrite Hrun in Hrun1. injection Hrun1 as <- <-.
  rewrite (new_events_app _ _ _ Htrace).
  destruct (Hfail Hs) as (_ & _ & Hcause). exact Hcause.
Qed.

(** When [rcl_logging_rosout_fini] faults. *)
Lemma rcl_logging_rosout_fini_faults_iff (st : state) :
  rcl_logging_rosout_fini w st = None
  <-> (__is_initialized st = true
       /\ exists key entry,
            head (map_to_list (__logger_map st)) = Some (key, entry)
            /\ w_publisher_fini w (trace st ++ [EvHashMapGetNext None])
                 (publisher entry) (node entry) = RCL_RET_OK).
Proof.
  split.
  - intros Hfault.
    destruct (__is_initialized st) eqn:Hinit.
    + split; [reflexivity |].
      destruct (rcl_logging_rosout_fini_outcome st Hinit)
        as [(_ & Hfirst) | (status & st' & evs & Hrun & _)];
        [assumption | congruence].
    + destruct (not_initialized_returns w st None None 0 "" 0 "" Hinit)
        as (_ & _ & Hrun & _). congruence.
  - intros (Hinit & key & entry & Hhead & Hok).
    destruct (rcl_logging_rosout_fini_outcome st Hinit)
      as [(Hfault & _)
         | (status & st' & evs & _ & _ & _ & _ & _ & _ & _ & _ & Hfirst)];
      [assumption |].
    destruct (Hfirst key entry Hhead) as (Hne & _). contradiction.
Qed.

(** X22: [rcl_logging_rosout_fini] faults in exactly one situation: the
    registry is initialised, it holds at least one entry, and the teardown
    of the publisher of the first entry enumerated returned [RCL_RET_OK];
    the enumeration is then continued with the name itself for previous
    key (line 88). *)
Theorem rosout_fini_faults_after_first_teardown (st : state) :
  rcl_logging_rosout_fini w st = None
  <-> (__is_initialized st = true
       /\ exists key entry,
            head (map_to_list (__logger_map st)) = Some (key, entry)
            /\ w_publisher_fini w (trace st ++ [EvHashMapGetNext None])
                 (publisher entry) (node entry) = RCL_RET_OK).
Proof.
  apply rcl_logging_rosout_fini_faults_iff.
Qed.

End RegistryLifecycle.

(** ** Life cycle of the dispatcher *)

Section DispatcherLifecycle.

Variable w : World.

(** Everything one call of [rcl_logging_configure] does besides filling
    the handler list. *)
Lemma configure_outcome
    (global_args : rcl_arguments_t) (allocator : option rcl_allocator_t)
    (st : state) :
  exists status st' evs,
    rcl_logging_configure w global_args allocator st = Some (status, st')
    /\ trace st' = trace st ++ evs
    /\ head evs = Some EvLoggingAutoinit
    /\ last evs = Some EvSetOutputHandlerMultiple
    /\ default_logger_levels evs
       = (if 0 <=? log_level (impl global_args)
          then [log_level (impl global_args)] else [])
    /\ external_initializes evs
       = (if log_ext_lib_disabled (impl global_args) then []
          else [(external_log_config_file (impl global_args), status)])
    /\ external_logger_levels evs
       = (if negb (log_ext_lib_disabled (impl global_args))
             && bool_decide (status = RCL_RET_OK)
          then [(None, log_level (impl global_args))] else [])
    /\ length (hash_map_inits evs)
       = (if negb (log_rosout_disabled (impl global_args))
             && bool_decide (allocator <> None)
             && negb (__is_initialized st)
          then 1%nat else 0%nat)
    /\ (log_ext_lib_disabled (impl global_args) = true ->
        status
        = if log_rosout_disabled (impl global_args) then RCL_RET_OK
          else match allocator with
               | None => RCL_RET_INVALID_ARGUMENT
               | Some _ =>
                   if __is_initialized st then RCL_RET_OK
                   else default RCL_RET_OK (head (hash_map_inits evs))
               end)
    /\ (__is_initialized st = true -> registry st' = registry st)
    /\ (log_rosout_disabled (impl global_args) = true ->
        registry st' = registry st).
Proof.
  destruct st as [m i al hs num f1 f2 f3 t].
  destruct global_args as [[lvl cfg d1 d2 d3]].
  unfold_calls. unfold_calls. simpl.
  destruct (0 <=? lvl), d1, d2, d3, allocator as [a |], i; simpl;
    repeat (case_decide; simpl);
    (eexists; eexists; eexists; (split; [reflexivity |]); simpl;
     split;
     [repeat (eapply trace_extends_snoc); apply trace_extends_refl |];
     simpl;
     repeat case_bool_decide; try congruence; simpl;
     repeat split; try reflexivity; try lia;
     try (intros; simpl; first [reflexivity | congruence])).
Qed.


(** X14: after any [rcl_logging_configure] the counter is between 0 and
    3, below the capacity of the array, whose length is unchanged; every
    slot below the counter holds a handler, so the dispatcher's loop
    visits as many handlers as the counter says. *)
Theorem configure_stays_in_bounds
    (global_args : rcl_arguments_t) (allocator : option rcl_allocator_t)
    (st : state) :
  length (g_rcl_logging_out_handlers st) = RCL_LOGGING_MAX_OUTPUT_FUNCS ->
  exists status st',
    rcl_logging_configure w global_args allocator st = Some (status, st')
    /\ length (g_rcl_logging_out_handlers st') = RCL_LOGGING_MAX_OUTPUT_FUNCS
    /\ 0 <= g_rcl_logging_num_out_handlers st' <= 3
    /\ (forall i : nat,
          Z.of_nat i < g_rcl_logging_num_out_handlers st' ->
          exists h, g_rcl_logging_out_handlers st' !! i = Some (Some h))
    /\ length (active_handlers st')
       = Z.to_nat (g_rcl_logging_num_out_handlers st').
Proof.
  intros Hlen.
  destruct (configure_spec w global_args allocator st Hlen)
    as (status & st' & Hrun & Hlen' & Hnum & Htake & _).
  exists status, st'. split; [assumption |]. split; [assumption |].
  pose proof (configured_sinks_length
    (negb (log_stdout_disabled (impl global_args)))
    (negb (log_rosout_disabled (impl global_args))
     && bool_decide (is_Some allocator) && __is_initialized st')
    (negb (log_ext_lib_disabled (impl global_args))
     && bool_decide (status = RCL_RET_OK))) as Hle.
  fold (sinks_of_configuration global_args allocator status st') in Hle.
  split; [lia |]. split.
  - intros i Hi.
    assert (Hlt : (i < length (sinks_of_configuration global_args allocator
                                 status st'))%nat) by lia.
    destruct (lookup_lt_is_Some_2 _ _ Hlt) as [h Hh].
    exists h.
    rewrite <- (lookup_take_lt _ _ _ Hlt), Htake, list_lookup_fmap, Hh.
    reflexivity.
  - unfold active_handlers. rewrite Hnum, Nat2Z.id.
    rewrite active_prefix_take by assumption. reflexivity.
Qed.

(** X15: the value [rcl_logging_configure] returns: with the external
    sink enabled, the status of the one call to
    [rcl_logging_external_initialize]; with it disabled, [RCL_RET_OK] when
    the registry sink is disabled too, and otherwise the status of
    [rcl_logging_rosout_init] ([RCL_RET_INVALID_ARGUMENT] for a null
    allocator, [RCL_RET_OK] on an initialised registry, the status of the
    one hash map creation otherwise). *)
Theorem configure_return_value
    (global_args : rcl_arguments_t) (allocator : option rcl_allocator_t)
    (st : state) :
  exists status st',
    rcl_logging_configure w global_args allocator st = Some (status, st')
    /\ (log_ext_lib_disabled (impl global_args) = false ->
        external_initializes (new_events st st')
        = [(external_log_config_file (impl global_args), status)])
    /\ (log_ext_lib_disabled (impl global_args) = true ->
        external_initializes (new_events st st') = []
        /\ (log_rosout_disabled (impl global_args) = true ->
            status = RCL_RET_OK)
        /\ (log_rosout_disabled (impl global_args) = false ->
            (allocator = None -> status = RCL_RET_INVALID_ARGUMENT)
            /\ (allocator <> None -> __is_initialized st = true ->
                status = RCL_RET_OK)
            /\ (allocator <> None -> __is_initialized st = false ->
                hash_map_inits (new_events st st') = [status]))).
Proof.
  destruct (configure_outcome global_args allocator st)
    as (status & st' & evs & Hrun & Htrace & _ & _ & _ & Hext & _ & Hmaps
        & Hstatus & _).
  exists status, st'. split; [assumption |].
  rewrite (new_events_app _ _ _ Htrace), Hext.
  split.
  - intros ->. reflexivity.
  - intros Hd. rewrite Hd. split; [reflexivity |].
    specialize (Hstatus Hd). split.
    + intros Hr. rewrite Hr in Hstatus. assumption.
    + intros Hr. rewrite Hr in Hstatus, Hmaps. split; [| split].
      * intros ->. assumption.
      * intros Ha Hi. destruct allocator; [| contradiction].
        rewrite Hi in Hstatus. assumption.
      * intros Ha Hi. destruct allocator as [a |]; [| contradiction].
        rewrite Hi in Hstatus, Hmaps.
        rewrite bool_decide_eq_true_2 in Hmaps by discriminate.
        simpl in Hmaps.
        destruct (hash_map_inits evs) as [| s [| s' l]]; try discriminate.
        simpl in Hstatus. congruence.
Qed.

(** X16: [rcl_logging_configure] on an initialised registry leaves the
    registry, entries included, as it was and does not create the hash
    map again, whatever the options and the allocator. *)
Theorem configure_keeps_initialized_registry
    (global_args : rcl_arguments_t) (allocator : option rcl_allocator_t)
    (st : state) :
  __is_initialized st = true ->
  exists status st',
    rcl_logging_configure w global_args allocator st = Some (status, st')
    /\ registry st' = registry st
    /\ hash_map_inits (new_events st st') = [].
Proof.
  intros Hinit.
  destruct (configure_outcome global_args allocator st)
    as (status & st' & evs & Hrun & Htrace & _ & _ & _ & _ & _ & Hmaps & _
        & Hreg & _).
  exists status, st'. split; [assumption |]. split; [auto |].
  rewrite (new_events_app _ _ _ Htrace).
  rewrite Hinit, andb_false_r in Hmaps.
  destruct (hash_map_inits evs); [reflexivity | discriminate].
Qed.

(** X17: [rcl_logging_configure] starts with the auto-initialisation of
    rcutils logging and ends by installing the dispatcher as the output
    handler; it sets the default logger level once when the level of the
    arguments is not negative and not at all otherwise; it sets the level
    of the external library, to the level of the arguments whatever its
    sign, exactly when the external sink is enabled and the call returns
    [RCL_RET_OK]. *)
Theorem configure_calls_on_logging_facilities
    (global_args : rcl_arguments_t) (allocator : option rcl_allocator_t)
    (st : state) :
  exists status st',
    rcl_logging_configure w global_args allocator st = Some (status, st')
    /\ head (new_events st st') = Some EvLoggingAutoinit
    /\ last (new_events st st') = Some EvSetOutputHandlerMultiple
    /\ default_logger_levels (new_events st st')
       = (if 0 <=? log_level (impl global_args)
          then [log_level (impl global_args)] else [])
    /\ external_logger_levels (new_events st st')
       = (if negb (log_ext_lib_disabled (impl global_args))
             && bool_decide (status = RCL_RET_OK)
          then [(None, log_level (impl global_args))] else []).
Proof.
  destruct (configure_outcome global_args allocator st)
    as (status & st' & evs & Hrun & Htrace & Hhead & Hlast & Hdef & _ & Hlev
        & _).
  exists status, st'. split; [assumption |].
  rewrite (new_events_app _ _ _ Htrace). repeat split; assumption.
Qed.

Lemma no_external_shutdown (evs : list event) :
  existsb is_external_shutdown evs = false -> external_shutdowns evs = [].
Proof.
  induction evs as [| e evs IH]; [reflexivity |].
  simpl. intros H. apply orb_false_elim in H as [He Hrest].
  unfold external_shutdowns in *. simpl.
  destruct e; simpl in He; try discriminate; simpl; apply IH; assumption.
Qed.

(** X18: with the registry sink disabled [rcl_logging_fini] returns,
    leaves the registry as it was and makes no other call than the
    reinstallation of the console handler and the external shutdown, if
    that sink is enabled, whose status it returns ([RCL_RET_OK] if not);
    and whenever it returns, it has first reinstalled the console handler,
    left the handler list, the counter and the enable flags as they were
    and, with the external sink disabled, not called the external
    shutdown. *)
Theorem logging_fini_tears_down_only_enabled_sinks (st : state) :
  (g_rcl_logging_rosout_enabled st = false ->
   exists status st',
     rcl_logging_fini w st = Some (status, st')
     /\ registry st' = registry st
     /\ new_events st st'
        = EvSetOutputHandlerConsole
          :: (if g_rcl_logging_ext_lib_enabled st
              then [EvExternalShutdown status] else [])
     /\ (g_rcl_logging_ext_lib_enabled st = false -> status = RCL_RET_OK))
  /\ forall status st',
       rcl_logging_fini w st = Some (status, st') ->
       head (new_events st st') = Some EvSetOutputHandlerConsole
       /\ dispatcher st' = dispatcher st
       /\ (g_rcl_logging_ext_lib_enabled st = false ->
           external_shutdowns (new_events st st') = []).
Proof.
  unfold rcl_logging_fini, emit, modify, get, mbind, M_bind, mret, M_ret.
  simpl.
  destruct (g_rcl_logging_rosout_enabled st) eqn:Hrosout.
  - split; [discriminate |].
    intros status st'.
    destruct (rcl_logging_rosout_fini w
                (set_trace (trace st ++ [EvSetOutputHandlerConsole]) st))
      as [[s st1] |] eqn:Hrun; [| discriminate].
    destruct (rcl_logging_rosout_fini_returns w _ _ _ Hrun)
      as (evs & Htrace & Hevs & Hdisp).
    assert (Hflag : g_rcl_logging_ext_lib_enabled st1
                    = g_rcl_logging_ext_lib_enabled st).
    { unfold dispatcher in Hdisp. simpl in Hdisp.
      injection Hdisp as _ _ _ _ ->. reflexivity. }
    simpl in Htrace, Hdisp. rewrite Hflag.
    destruct (bool_decide (RCL_RET_OK = s) && g_rcl_logging_ext_lib_enabled st)
      eqn:Hcond.
    + unfold rcl_logging_external_shutdown. simpl.
      intros Heq. injection Heq as _ <-. simpl.
      rewrite (new_events_app _ _
        (EvSetOutputHandlerConsole
           :: evs ++ [EvExternalShutdown (w_external_shutdown w (trace st1))])).
      * split; [reflexivity |]. split; [assumption |].
        intros Hext. rewrite Hext, andb_false_r in Hcond. discriminate.
      * simpl. rewrite Htrace, <- !app_assoc. reflexivity.
    + intros Heq. injection Heq as _ <-.
      rewrite (new_events_app _ _ (EvSetOutputHandlerConsole :: evs)).
      * split; [reflexivity |]. split; [assumption |].
        intros _. apply (no_external_shutdown (_ :: evs)). assumption.
      * rewrite Htrace, <- !app_assoc. reflexivity.
  - simpl. destruct (g_rcl_logging_ext_lib_enabled st) eqn:Hext; simpl.
    + unfold rcl_logging_external_shutdown. simpl. split.
      * intros _. eexists. eexists. split; [reflexivity |]. simpl.
        rewrite (new_events_app _ _
          [EvSetOutputHandlerConsole;
           EvExternalShutdown
             (w_external_shutdown w (trace st ++ [EvSetOutputHandlerConsole]))]).
        -- repeat split; try reflexivity; intros; discriminate.
        -- simpl. rewrite <- !app_assoc. reflexivity.
      * intros status st' Heq. injection Heq as _ <-. simpl.
        rewrite (new_events_app _ _
          [EvSetOutputHandlerConsole;
           EvExternalShutdown
             (w_external_shutdown w (trace st ++ [EvSetOutputHandlerConsole]))]).
        -- repeat split; try reflexivity; intros; discriminate.
        -- simpl. rewrite <- !app_assoc. reflexivity.
    + split.
      * intros _. eexists. eexists. split; [reflexivity |]. simpl.
        rewrite (new_events_app _ _ [EvSetOutputHandlerConsole]);
          [| reflexivity].
        repeat split; reflexivity.
      * intros status st' Heq. injection Heq as _ <-. simpl.
        rewrite (new_events_app _ _ [EvSetOutputHandlerConsole]);
          [| reflexivity].
        repeat split; reflexivity.
Qed.

(** X23: [rcl_logging_fini] faults in exactly one situation: the registry
    sink is enabled, the registry is initialised and holds at least one
    entry, and the teardown of the publisher of the first entry enumerated
    returned [RCL_RET_OK]. *)
Theorem logging_fini_faults_with_a_registered_logger (st : state) :
  rcl_logging_fini w st = None
  <-> (g_rcl_logging_rosout_enabled st = true
       /\ __is_initialized st = true
       /\ exists key entry,
            head (map_to_list (__logger_map st)) = Some (key, entry)
            /\ w_publisher_fini w
                 ((trace st ++ [EvSetOutputHandlerConsole])
                    ++ [EvHashMapGetNext None])
                 (publisher entry) (node entry) = RCL_RET_OK).
Proof.
  pose proof (rcl_logging_rosout_fini_faults_iff w
                (set_trace (trace st ++ [EvSetOutputHandlerConsole]) st))
    as Hiff.
  simpl in Hiff.
  unfold rcl_logging_fini, emit, modify, get, mbind, M_bind, mret, M_ret.
  simpl.
  destruct (g_rcl_logging_rosout_enabled st); simpl.
  - destruct (rcl_logging_rosout_fini w
                (set_trace (trace st ++ [EvSetOutputHandlerConsole]) st))
      as [[status st1] |] eqn:Hrun.
    + split.
      * destruct (bool_decide (RCL_RET_OK = status)
                  && g_rcl_logging_ext_lib_enabled st1);
          unfold rcl_logging_external_shutdown; simpl; discriminate.
      * intros (_ & Hfault). apply Hiff in Hfault. discriminate.
    + split; [| reflexivity]. intros _. split; [reflexivity |].
      apply Hiff. reflexivity.
  - split.
    + destruct (g_rcl_logging_ext_lib_enabled st);
        unfold rcl_logging_external_shutdown; simpl; discriminate.
    + intros (H & _). discriminate.
Qed.

(** X19: for a counter that fits a [uint8_t],
    [rcl_logging_multiple_output_handler] behaves as calling, in slot
    order, the handlers of the slots below the counter up to the first
    empty slot: none when the counter is 0 or slot 0 is empty, and the
    bound on the loop is never what stops it. *)
Theorem dispatch_calls_non_null_prefix
    (location : option rcutils_log_location_t) (severity : Z) (name : string)
    (timestamp : Z) (log_str : string) (st : state) :
  0 <= g_rcl_logging_num_out_handlers st <= 255 ->
  rcl_logging_multiple_output_handler w location severity name timestamp
    log_str st
  = call_output_handlers w (active_handlers st) location severity name
      timestamp log_str st.
Proof.
  apply multiple_output_handler_spec.
Qed.

(** A sequence of handler calls changes nothing but the trace, which it
    only extends. *)
Lemma call_output_handlers_frame
    (location : option rcutils_log_location_t) (severity : Z) (name : string)
    (timestamp : Z) (log_str : string)
    (hs : list rcutils_logging_output_handler_t) :
  forall st st',
    call_output_handlers w hs location severity name timestamp log_str st
      = Some (tt, st') ->
    st' = set_trace (trace st') st
    /\ exists evs, trace st' = trace st ++ evs.
Proof.
  induction hs as [| h hs IH]; intros st st' Hrun.
  - injection Hrun as <-. split; [destruct st; reflexivity |].
    exists []. symmetry. apply app_nil_r.
  - simpl in Hrun. unfold mbind, M_bind in Hrun.
    destruct (call_output_handler w h location severity name timestamp log_str st)
      as [[[] st1] |] eqn:Hcall; [| discriminate].
    destruct (IH st1 st' Hrun) as (Hframe & evs & Hevs).
    pose proof (call_output_handler_frame w _ _ _ _ _ _ _ _ Hcall) as Hframe1.
    assert (Hext : exists evs1, trace st1 = trace st ++ evs1).
    { clear -Hcall. unfold call_output_handler in Hcall.
      destruct h; unfold_calls in Hcall; simpl in Hcall.
      - injection Hcall as <-. eexists. reflexivity.
      - destruct (__is_initialized st); simpl in Hcall.
        + destruct (__logger_map st !! name) as [entry |]; simpl in Hcall.
          * destruct (w_Log__create w _); simpl in Hcall.
            -- destruct location as [loc |]; simpl in Hcall; [| discriminate].
               injection Hcall as <-. simpl. eexists.
               repeat (eapply trace_extends_snoc). apply trace_extends_refl.
            -- injection Hcall as <-. simpl. eexists.
               repeat (eapply trace_extends_snoc). apply trace_extends_refl.
          * injection Hcall as <-. simpl. eexists. reflexivity.
        + injection Hcall as <-. exists []. symmetry. apply app_nil_r.
      - injection Hcall as <-. eexists. reflexivity. }
    destruct Hext as [evs1 Hevs1]. split.
    + rewrite Hframe, Hframe1. destruct st; reflexivity.
    + exists (evs1 ++ evs). rewrite Hevs, Hevs1, app_assoc. reflexivity.
Qed.

(** X20: a dispatch that returns has changed neither the registry nor
    the statics of the dispatcher: it only added calls to the trace. *)
Theorem dispatch_changes_only_the_trace
    (location : option rcutils_log_location_t) (severity : Z) (name : string)
    (timestamp : Z) (log_str : string) (st st' : state) :
  0 <= g_rcl_logging_num_out_handlers st <= 255 ->
  rcl_logging_multiple_output_handler w location severity name timestamp
    log_str st = Some (tt, st') ->
  registry st' = registry st
  /\ dispatcher st' = dispatcher st
  /\ exists evs, trace st' = trace st ++ evs.
Proof.
  intros Hnum Hrun. rewrite multiple_output_handler_spec in Hrun by assumption.
  destruct (call_output_handlers_frame _ _ _ _ _ _ _ _ Hrun) as (Hframe & Hevs).
  split; [rewrite Hframe; reflexivity |].
  split; [rewrite Hframe; reflexivity | assumption].
Qed.

(** X21: after a [rcl_logging_configure] with the registry sink
    disabled, [rcl_logging_fini] leaves the registry as it was before the
    two calls: a registry initialised earlier stays initialised, with its
    entries, and no publisher and no hash map is finalised. *)
Theorem fini_after_disabling_registry_sink_keeps_registry
    (global_args : rcl_arguments_t) (allocator : option rcl_allocator_t)
    (st : state) :
  length (g_rcl_logging_out_handlers st) = RCL_LOGGING_MAX_OUTPUT_FUNCS ->
  log_rosout_disabled (impl global_args) = true ->
  exists s1 st1 s2 st2,
    rcl_logging_configure w global_args allocator st = Some (s1, st1)
    /\ rcl_logging_fini w st1 = Some (s2, st2)
    /\ registry st2 = registry st
    /\ publisher_finis (new_events st1 st2) = []
    /\ hash_map_finis (new_events st1 st2) = [].
Proof.
  intros Hlen Hoff.
  destruct (configure_spec w global_args allocator st Hlen)
    as (s1 & st1 & Hrun & _ & _ & _ & _ & Hrosout & _).
  destruct (configure_outcome global_args allocator st)
    as (s1' & st1' & evs & Hrun' & _ & _ & _ & _ & _ & _ & _ & _ & _ & Hreg).
  rewrite Hrun in Hrun'. injection Hrun' as <- <-.
  rewrite Hoff in Hrosout. simpl in Hrosout.
  exists s1, st1.
  unfold rcl_logging_fini, emit, modify, get, mbind, M_bind, mret, M_ret.
  simpl. rewrite Hrosout. simpl.
  destruct (g_rcl_logging_ext_lib_enabled st1); simpl.
  - unfold rcl_logging_external_shutdown. simpl.
    eexists. eexists. split; [assumption |]. split; [reflexivity |].
    split; [apply Hreg; assumption |].
    rewrite (new_events_app _ _
      [EvSetOutputHandlerConsole;
       EvExternalShutdown
         (w_external_shutdown w (trace st1 ++ [EvSetOutputHandlerConsole]))]).
    + split; reflexivity.
    + simpl. rewrite <- !app_assoc. reflexivity.
  - eexists. eexists. split; [assumption |]. split; [reflexivity |].
    split; [apply Hreg; assumption |].
    rewrite (new_events_app _ _ [EvSetOutputHandlerConsole]); [| reflexivity].
    split; reflexivity.
Qed.
End DispatcherLifecycle.

(** ** The extra properties at concrete inputs *)

Lemma init_twice_allocates_once_witness :
  __is_initialized initial_state = false
  /\ w_hash_map_init world_ok (trace initial_state) = RCL_RET_OK
  /\ exists st1,
       rcl_logging_rosout_init world_ok (Some the_allocator) initial_state
         = Some (RCL_RET_OK, st1)
       /\ rcl_logging_rosout_init world_ok (Some {| allocator_id := 1 |}) st1
          = Some (RCL_RET_OK, st1)
       /\ registry st1 = (∅, true, Some the_allocator).
Proof.
  split; [reflexivity |]. split; [reflexivity |].
  destruct (init_twice_allocates_once world_ok initial_state the_allocator
              {| allocator_id := 1 |})
    as (st1 & Hrun & _ & Hreg & Hagain); [reflexivity | reflexivity |].
  exists st1. split; [exact Hrun |]. split; [exact Hagain | exact Hreg].
Defined.

Lemma per_node_calls_reject_invalid_nodes_witness :
  __is_initialized initialized_state = true
  /\ rcl_node_get_logger_name nameless = None
  /\ rcl_logging_rosout_fini_publisher_for_node world_ok (Some nameless)
       initialized_state = Some (RCL_RET_ERROR, initialized_state).
Proof.
  split; [reflexivity |]. split; [reflexivity |].
  destruct (per_node_calls_reject_invalid_nodes world_ok initialized_state)
    as (_ & _ & Hnameless); [reflexivity |].
  destruct (Hnameless nameless) as (_ & Hunreg); [reflexivity |].
  exact Hunreg.
Defined.

Lemma register_then_unregister_restores_registry_witness :
  __is_initialized initialized_state = true
  /\ rcl_logging_rosout_init_publisher_for_node world_ok (Some nav)
       initialized_state = Some (RCL_RET_OK, nav_registered_state)
  /\ rcl_logging_rosout_fini_publisher_for_node world_ok (Some nav)
       nav_registered_state
     = Some (RCL_RET_OK,
             state_after
               (rcl_logging_rosout_fini_publisher_for_node world_ok (Some nav))
               nav_registered_state)
  /\ __logger_map
       (state_after
          (rcl_logging_rosout_fini_publisher_for_node world_ok (Some nav))
          nav_registered_state)
     = __logger_map initialized_state.
Proof.
  split; [reflexivity |]. split; [reflexivity |]. split; [reflexivity |].
  destruct (register_then_unregister_restores_registry world_ok
              initialized_state nav_registered_state
              (state_after
                 (rcl_logging_rosout_fini_publisher_for_node world_ok (Some nav))
                 nav_registered_state)
              (Some nav))
    as (Hmap & _); [reflexivity | reflexivity | reflexivity |].
  exact Hmap.
Defined.

Lemma register_then_log_publishes_on_new_publisher_witness :
  __is_initialized initialized_state = true
  /\ rcl_logging_rosout_init_publisher_for_node world_ok (Some nav)
       initialized_state = Some (RCL_RET_OK, nav_registered_state)
  /\ exists n logger_name pub,
       Some nav = Some n
       /\ rcl_node_get_logger_name n = Some logger_name
       /\ In (EvPublisherInit n ROSOUT_TOPIC_NAME pub RCL_RET_OK)
            (new_events initialized_state nav_registered_state).
Proof.
  split; [reflexivity |]. split; [reflexivity |].
  destruct (register_then_log_publishes_on_new_publisher world_ok
              initialized_state nav_registered_state (Some nav))
    as (n & logger_name & pub & Hn & Hname & Hin & _);
    [reflexivity | reflexivity |].
  exists n, logger_name, pub. split; [exact Hn |].
  split; [exact Hname | exact Hin].
Defined.

Lemma unregister_then_log_publishes_nothing_witness :
  __is_initialized nav_registered_state = true
  /\ rcl_logging_rosout_fini_publisher_for_node world_ok (Some nav)
       nav_registered_state
     = Some (RCL_RET_OK,
             state_after
               (rcl_logging_rosout_fini_publisher_for_node world_ok (Some nav))
               nav_registered_state)
  /\ exists n logger_name,
       Some nav = Some n
       /\ rcl_node_get_logger_name n = Some logger_name
       /\ exists st2,
            rcl_logging_rosout_output_handler world_ok None 20 logger_name
              1700000000123456789 "obstacle detected"
              (state_after
                 (rcl_logging_rosout_fini_publisher_for_node world_ok (Some nav))
                 nav_registered_state)
            = Some (tt, st2).
Proof.
  split; [reflexivity |]. split; [reflexivity |].
  destruct (unregister_then_log_publishes_nothing world_ok
              nav_registered_state
              (state_after
                 (rcl_logging_rosout_fini_publisher_for_node world_ok (Some nav))
                 nav_registered_state)
              (Some nav))
    as (n & logger_name & Hn & Hname & Hlog); [reflexivity | reflexivity |].
  exists n, logger_name. split; [exact Hn |]. split; [exact Hname |].
  destruct (Hlog None 20 1700000000123456789 "obstacle detected")
    as (st2 & Hrun & _).
  exists st2. exact Hrun.
Defined.

Lemma handler_drops_record_of_unknown_logger_witness :
  __is_initialized initialized_state = true
  /\ __logger_map initialized_state !! "nav" = None
  /\ exists st',
       rcl_logging_rosout_output_handler world_ok None 20 "nav"
         1700000000123456789 "obstacle detected" initialized_state
       = Some (tt, st')
       /\ new_events initialized_state st' = [EvHashMapGet "nav"].
Proof.
  split; [reflexivity |]. split; [reflexivity |].
  destruct (handler_drops_record_of_unknown_logger world_ok initialized_state
              None 20 "nav" 1700000000123456789 "obstacle detected")
    as (st' & Hrun & Hnew & _); [reflexivity | reflexivity |].
  exists st'. split; [exact Hrun | exact Hnew].
Defined.

Lemma handler_without_message_publishes_nothing_witness :
  __is_initialized nav_registered_state = true
  /\ is_Some (__logger_map nav_registered_state !! "nav")
  /\ exists st',
       rcl_logging_rosout_output_handler world_no_message None 20 "nav"
         1700000000123456789 "obstacle detected" nav_registered_state
       = Some (tt, st')
       /\ new_events nav_registered_state st'
          = [EvHashMapGet "nav"; EvLogCreate false].
Proof.
  split; [reflexivity |]. split; [eexists; reflexivity |].
  destruct (handler_without_message_publishes_nothing world_no_message
              nav_registered_state None 20 "nav" 1700000000123456789
              "obstacle detected"
              {| node := nav; publisher := {| publisher_id := 2 |} |})
    as (st' & Hrun & Hnew & _); [reflexivity | reflexivity | reflexivity |].
  exists st'. split; [exact Hrun | exact Hnew].
Defined.

Lemma rosout_fini_is_all_or_nothing_witness :
  __is_initialized nav_registered_state = true
  /\ rcl_logging_rosout_fini world_publisher_fini_fails nav_registered_state
     = Some (RCL_RET_ERROR,
             state_after (rcl_logging_rosout_fini world_publisher_fini_fails)
               nav_registered_state)
  /\ registry
       (state_after (rcl_logging_rosout_fini world_publisher_fini_fails)
          nav_registered_state)
     = registry nav_registered_state.
Proof.
  split; [reflexivity |]. split; [vm_compute; reflexivity |].
  destruct (rosout_fini_is_all_or_nothing world_publisher_fini_fails
              nav_registered_state
              (state_after (rcl_logging_rosout_fini world_publisher_fini_fails)
                 nav_registered_state)
              RCL_RET_ERROR)
    as (_ & _ & Hfail); [reflexivity | vm_compute; reflexivity |].
  apply Hfail. discriminate.
Defined.

Lemma rosout_fini_succeeds_only_on_empty_registry_witness :
  (forall t pub n,
     w_publisher_fini world_ok t pub n <> RCUTILS_RET_HASH_MAP_NO_MORE_ENTRIES)
  /\ __is_initialized initialized_state = true
  /\ rcl_logging_rosout_fini world_ok initialized_state
     = Some (RCL_RET_OK,
             state_after (rcl_logging_rosout_fini world_ok) initialized_state)
  /\ __logger_map initialized_state = ∅
  /\ publisher_finis
       (new_events initialized_state
          (state_after (rcl_logging_rosout_fini world_ok) initialized_state))
     = [].
Proof.
  split; [intros t pub n; discriminate |].
  split; [reflexivity |]. split; [vm_compute; reflexivity |].
  destruct (rosout_fini_succeeds_only_on_empty_registry world_ok
              initialized_state
              (state_after (rcl_logging_rosout_fini world_ok) initialized_state))
    as (Hempty & Hfinis & _);
    [intros t pub n; discriminate | reflexivity | vm_compute; reflexivity |].
  split; [exact Hempty | exact Hfinis].
Defined.

Lemma rosout_fini_reports_the_call_that_failed_witness :
  __is_initialized nav_registered_state = true
  /\ rcl_logging_rosout_fini world_publisher_fini_fails nav_registered_state
     = Some (RCL_RET_ERROR,
             state_after (rcl_logging_rosout_fini world_publisher_fini_fails)
               nav_registered_state)
  /\ RCL_RET_ERROR <> RCL_RET_OK
  /\ ((exists pub n,
         last (new_events nav_registered_state
                 (state_after (rcl_logging_rosout_fini world_publisher_fini_fails)
                    nav_registered_state))
         = Some (EvPublisherFini pub n RCL_RET_ERROR))
      /\ hash_map_finis
           (new_events nav_registered_state
              (state_after (rcl_logging_rosout_fini world_publisher_fini_fails)
                 nav_registered_state)) = []
      \/ last (new_events nav_registered_state
                 (state_after (rcl_logging_rosout_fini world_publisher_fini_fails)
                    nav_registered_state))
         = Some (EvHashMapFini RCL_RET_ERROR)).
Proof.
  split; [reflexivity |]. split; [reflexivity |]. split; [discriminate |].
  apply (rosout_fini_reports_the_call_that_failed world_publisher_fini_fails
           nav_registered_state
           (state_after (rcl_logging_rosout_fini world_publisher_fini_fails)
              nav_registered_state)
           RCL_RET_ERROR);
    [reflexivity | reflexivity | discriminate].
Defined.

Lemma configure_stays_in_bounds_witness :
  length (g_rcl_logging_out_handlers initial_state) = RCL_LOGGING_MAX_OUTPUT_FUNCS
  /\ exists status st',
       rcl_logging_configure world_ok all_sinks (Some the_allocator) initial_state
         = Some (status, st')
       /\ 0 <= g_rcl_logging_num_out_handlers st' <= 3.
Proof.
  split; [reflexivity |].
  destruct (configure_stays_in_bounds world_ok all_sinks (Some the_allocator)
              initial_state)
    as (status & st' & Hrun & _ & Hnum & _); [reflexivity |].
  exists status, st'. split; [exact Hrun | exact Hnum].
Defined.

Lemma configure_keeps_initialized_registry_witness :
  __is_initialized nav_registered_state = true
  /\ exists status st',
       rcl_logging_configure world_ok all_sinks (Some the_allocator)
         nav_registered_state = Some (status, st')
       /\ registry st' = registry nav_registered_state.
Proof.
  split; [reflexivity |].
  destruct (configure_keeps_initialized_registry world_ok all_sinks
              (Some the_allocator) nav_registered_state)
    as (status & st' & Hrun & Hreg & _); [reflexivity |].
  exists status, st'. split; [exact Hrun | exact Hreg].
Defined.

Lemma dispatch_calls_non_null_prefix_witness :
  0 <= g_rcl_logging_num_out_handlers all_sinks_nav_state <= 255
  /\ rcl_logging_multiple_output_handler world_ok (Some here) 20 "nav"
       1700000000123456789 "obstacle detected" all_sinks_nav_state
     = call_output_handlers world_ok (active_handlers all_sinks_nav_state)
         (Some here) 20 "nav" 1700000000123456789 "obstacle detected"
         all_sinks_nav_state.
Proof.
  split; [split; discriminate |].
  apply (dispatch_calls_non_null_prefix world_ok (Some here) 20 "nav"
           1700000000123456789 "obstacle detected" all_sinks_nav_state).
  split; discriminate.
Defined.

Lemma dispatch_changes_only_the_trace_witness :
  0 <= g_rcl_logging_num_out_handlers all_sinks_nav_state <= 255
  /\ rcl_logging_multiple_output_handler world_ok (Some here) 20 "nav"
       1700000000123456789 "obstacle detected" all_sinks_nav_state
     = Some (tt,
             state_after
               (rcl_logging_multiple_output_handler world_ok (Some here) 20
                  "nav" 1700000000123456789 "obstacle detected")
               all_sinks_nav_state)
  /\ registry
       (state_after
          (rcl_logging_multiple_output_handler world_ok (Some here) 20
             "nav" 1700000000123456789 "obstacle detected")
          all_sinks_nav_state)
     = registry all_sinks_nav_state.
Proof.
  split; [split; discriminate |]. split; [vm_compute; reflexivity |].
  destruct (dispatch_changes_only_the_trace world_ok (Some here) 20 "nav"
              1700000000123456789 "obstacle detected" all_sinks_nav_state
              (state_after
                 (rcl_logging_multiple_output_handler world_ok (Some here) 20
                    "nav" 1700000000123456789 "obstacle detected")
                 all_sinks_nav_state))
    as (Hreg & _); [split; discriminate | vm_compute; reflexivity |].
  exact Hreg.
Defined.

Lemma fini_after_disabling_registry_sink_keeps_registry_witness :
  length (g_rcl_logging_out_handlers nav_registered_state)
  = RCL_LOGGING_MAX_OUTPUT_FUNCS
  /\ log_rosout_disabled (impl console_only) = true
  /\ exists s1 st1 s2 st2,
       rcl_logging_configure world_ok console_only (Some the_allocator)
         nav_registered_state = Some (s1, st1)
       /\ rcl_logging_fini world_ok st1 = Some (s2, st2)
       /\ registry st2 = registry nav_registered_state.
Proof.
  split; [reflexivity |]. split; [reflexivity |].
  destruct (fini_after_disabling_registry_sink_keeps_registry world_ok
              console_only (Some the_allocator) nav_registered_state)
    as (s1 & st1 & s2 & st2 & Hrun1 & Hrun2 & Hreg & _);
    [reflexivity | reflexivity |].
  exists s1, st1, s2, st2. split; [exact Hrun1 |].
  split; [exact Hrun2 | exact Hreg].
Defined.
